(** * django-htmx-cbv: middleware and class-based views, verified

    A shallow embedding of [django_htmx_cbv/middleware.py],
    [django_htmx_cbvs/middleware.py], [django_htmx_cbv/views.py] and
    [django_htmx_cbv/forms.py].  Python objects that the code mutates
    ([request], [response], the model instance) are threaded explicitly;
    code that can raise returns a [result]. *)

From Stdlib Require Import ZArith Ascii String.
From stdpp Require Import gmap strings list fin_maps.

Local Open Scope string_scope.
Local Open Scope Z_scope.

(** ** Python strings

    A [str] is modelled as a [string] of bytes; the case conversions act on
    the ASCII letters, every other byte is kept.  On ASCII text they are
    [str.upper] and [str.lower]; on other text the interpreter also
    converts the letters outside ASCII, which this model does not follow. *)
Module Py.

Definition ascii_upper (c : ascii) : ascii :=
  let n := N_of_ascii c in
  if ((97 <=? n) && (n <=? 122))%N then ascii_of_N (n - 32) else c.

Definition ascii_lower (c : ascii) : ascii :=
  let n := N_of_ascii c in
  if ((65 <=? n) && (n <=? 90))%N then ascii_of_N (n + 32) else c.

Fixpoint str_map (f : ascii -> ascii) (s : string) : string :=
  match s with
  | EmptyString => EmptyString
  | String c s' => String (f c) (str_map f s')
  end.

(** [s.upper()] and [s.lower()] *)
Definition upper (s : string) : string := str_map ascii_upper s.
Definition lower (s : string) : string := str_map ascii_lower s.

(** [c in s] for a one-character [c] *)
Fixpoint contains (c : ascii) (s : string) : bool :=
  match s with
  | EmptyString => false
  | String a s' => if Ascii.eqb a c then true else contains c s'
  end.

(** [s.lstrip(c)], [s.rstrip(c)] and [s.strip(c)] for a one-character [c]:
    only the leading and the trailing run of [c] goes. *)
Fixpoint lstrip (c : ascii) (s : string) : string :=
  match s with
  | EmptyString => EmptyString
  | String a s' => if Ascii.eqb a c then lstrip c s' else s
  end.

Fixpoint rstrip (c : ascii) (s : string) : string :=
  match s with
  | EmptyString => EmptyString
  | String a s' =>
      match rstrip c s' with
      | EmptyString => if Ascii.eqb a c then EmptyString else String a EmptyString
      | r => String a r
      end
  end.

Definition strip (c : ascii) (s : string) : string := rstrip c (lstrip c s).

(** Truth value of a [str], and of an optional one ([None] is falsy). *)
Definition truthy (s : string) : bool :=
  match s with EmptyString => false | _ => true end.

Definition opt_truthy (o : option string) : bool :=
  match o with Some s => truthy s | None => false end.

(** [a or b] on optional strings *)
Definition or_else (a b : option string) : option string :=
  if opt_truthy a then a else b.

(** Exceptions the code raises or lets through. *)
Inductive exn : Type :=
  | ImproperlyConfigured (message : string)
  | PermissionDenied
  | BadRequest
  | Http404
  | AttributeError (attr : string)
  | KeyError (key : string)
  | TypeError (message : string)
  | ValueError (message : string).

Inductive result (A : Type) : Type :=
  | Ok (a : A)
  | Raise (e : exn).
Arguments Ok {A} a.
Arguments Raise {A} e.

Definition bind {A B} (r : result A) (k : A -> result B) : result B :=
  match r with
  | Ok a => k a
  | Raise e => Raise e
  end.

(** [mapM]: run [f] over a list, left to right, stopping at the first raise. *)
Fixpoint traverse {A B} (f : A -> result B) (l : list A) : result (list B) :=
  match l with
  | [] => Ok []
  | x :: l' =>
      bind (f x) (fun y => bind (traverse f l') (fun ys => Ok (y :: ys)))
  end.

End Py.

Import Py.

#[global] Instance result_ret : MRet result := @Ok.
#[global] Instance result_bind : MBind result := fun A B k r => Py.bind r k.

(** ** The framework objects the code reads and writes *)
Module Django.

(** [CaseInsensitiveMapping] (request and response headers): the store maps
    [key.lower()] to the pair of the key as written and its value. *)
Abbreviation Headers := (gmap string (string * string)).

Definition header_get (h : Headers) (key : string) : option string :=
  snd <$> h !! lower key.

Definition header_in (key : string) (h : Headers) : bool :=
  bool_decide (is_Some (h !! lower key)).

Definition header_set (h : Headers) (key value : string) : Headers :=
  <[lower key := (key, value)]> h.

(** [QueryDict], a [MultiValueDict]: every key holds the list of its values. *)
Abbreviation QueryDict := (gmap string (list string)).

(** [q.get(key)]: the last value, [None] for a missing key or an empty list *)
Definition qd_get (q : QueryDict) (key : string) : option string :=
  q !! key ≫= last.

(** [q.getlist(key)] *)
Definition qd_getlist (q : QueryDict) (key : string) : list string :=
  default [] (q !! key).

(** [bool(q)]: a dict is truthy when it has a key *)
Definition qd_truthy (q : QueryDict) : bool := bool_decide (q ≠ ∅).

(** [q.dict()]: every key with its last value ([None] stands for the [[]]
    that an empty value list gives) *)
Definition qd_dict (q : QueryDict) : gmap string (option string) := last <$> q.

(** [request.htmx], the [HtmxDetails] that django_htmx attaches: its truth
    value (the HX-Request header is "true"), [target] and [trigger]. *)
Record HtmxDetails := {
  htmx_bool : bool;
  htmx_target : option string;
  htmx_trigger : option string;
}.

(** [HttpRequest].  [QUERY] and [BODY] are the attributes that
    [HttpVerbViewMiddleware] adds: [None] while unassigned. *)
Record HttpRequest := {
  method : string;
  content_type : string;
  headers : Headers;
  GET : QueryDict;
  POST : QueryDict;
  FILES : QueryDict;
  body : string;
  htmx : HtmxDetails;
  QUERY : option QueryDict;
  BODY : option QueryDict;
  _messages : list string;
}.

Definition set_method (r : HttpRequest) (m : string) : HttpRequest :=
  {| method := m; content_type := content_type r; headers := headers r;
     GET := GET r; POST := POST r; FILES := FILES r; body := body r;
     htmx := htmx r; QUERY := QUERY r; BODY := BODY r;
     _messages := _messages r |}.

Definition set_QUERY (r : HttpRequest) (q : QueryDict) : HttpRequest :=
  {| method := method r; content_type := content_type r; headers := headers r;
     GET := GET r; POST := POST r; FILES := FILES r; body := body r;
     htmx := htmx r; QUERY := Some q; BODY := BODY r;
     _messages := _messages r |}.

Definition set_BODY (r : HttpRequest) (q : QueryDict) : HttpRequest :=
  {| method := method r; content_type := content_type r; headers := headers r;
     GET := GET r; POST := POST r; FILES := FILES r; body := body r;
     htmx := htmx r; QUERY := QUERY r; BODY := Some q;
     _messages := _messages r |}.

(** The response classes the code meets.  A template response carries the
    list of template names that the generic views pass; the two redirect
    classes have a [url] property. *)
Inductive ResponseClass : Type :=
  | PlainResponse
  | TemplateResponse (template_name : list string)
  | Redirect
  | ClientRedirect.

Record HttpResponse := {
  status_code : Z;
  resp_headers : Headers;
  content : string;
  cls : ResponseClass;
}.

Definition default_headers : Headers :=
  header_set ∅ "Content-Type" "text/html; charset=utf-8".

(** [HttpResponse(content, status=status)] *)
Definition new_HttpResponse (html : string) (status : Z) : HttpResponse :=
  {| status_code := status; resp_headers := default_headers;
     content := html; cls := PlainResponse |}.

(** [HttpResponseRedirect(url)].  The [Location] is the URL as given:
    Django passes it through [iri_to_uri], which leaves a path of unreserved
    and reserved ASCII characters as it is and escapes every other
    character. *)
Definition HttpResponseRedirect (url : string) : HttpResponse :=
  {| status_code := 302;
     resp_headers := header_set default_headers "Location" url;
     content := ""; cls := Redirect |}.

(** django_htmx's [HttpResponseClientRedirect(url)]: status 200, the
    location moved to the HX-Redirect header *)
Definition HttpResponseClientRedirect (url : string) : HttpResponse :=
  {| status_code := 200;
     resp_headers := header_set default_headers "HX-Redirect" url;
     content := ""; cls := ClientRedirect |}.

(** [response.url]: a property of the redirect classes only *)
Definition url (r : HttpResponse) : result string :=
  match cls r with
  | Redirect =>
      match header_get (resp_headers r) "Location" with
      | Some u => Ok u
      | None => Raise (KeyError "location")
      end
  | ClientRedirect =>
      match header_get (resp_headers r) "HX-Redirect" with
      | Some u => Ok u
      | None => Raise (KeyError "hx-redirect")
      end
  | _ => Raise (AttributeError "url")
  end.

(** [response[key] = value] *)
Definition set_header (r : HttpResponse) (key value : string) : HttpResponse :=
  {| status_code := status_code r;
     resp_headers := header_set (resp_headers r) key value;
     content := content r; cls := cls r |}.

(** [response.write(html)] *)
Definition write (r : HttpResponse) (html : string) : HttpResponse :=
  {| status_code := status_code r; resp_headers := resp_headers r;
     content := content r +:+ html; cls := cls r |}.

Definition set_cls (r : HttpResponse) (c : ResponseClass) : HttpResponse :=
  {| status_code := status_code r; resp_headers := resp_headers r;
     content := content r; cls := c |}.

(** Forms.  A field either has a [queryset] (and [choices]), as a
    [ModelChoiceField], or only [choices], as a [ChoiceField], or neither. *)
Inductive Choices : Type :=
  | QuerySet (pks : list string)
  | ChoiceList (pairs : list (string * string))
  | OtherChoices (repr : string).

Inductive Field : Type :=
  | ModelChoiceField (queryset : Choices)
  | ChoiceField (choices : Choices)
  | PlainField.

(** [hasattr(field, 'queryset')] and [hasattr(field, 'choices')] *)
Definition has_queryset (f : Field) : bool :=
  match f with ModelChoiceField _ => true | _ => false end.

Definition has_choices (f : Field) : bool :=
  match f with PlainField => false | _ => true end.

(** A [dict] with string keys whose order is read: the pairs in insertion
    order. *)
Abbreviation odict A := (list (string * A)).

(** [d[key]] *)
Fixpoint odict_get {A} (d : odict A) (key : string) : option A :=
  match d with
  | [] => None
  | (k, v) :: d' => if bool_decide (k = key) then Some v else odict_get d' key
  end.

(** [d[key] = v]: in place for a key that is there, at the end otherwise *)
Fixpoint odict_set {A} (d : odict A) (key : string) (v : A) : odict A :=
  match d with
  | [] => [(key, v)]
  | (k, w) :: d' =>
      if bool_decide (k = key) then (k, v) :: d' else (k, w) :: odict_set d' key v
  end.

(** The [data] a form is bound to: a [QueryDict], or the [initial] dict
    that [HyperFormMixin.get_form_kwargs] passes for a GET form. *)
Inductive FormData : Type :=
  | DataQuery (q : QueryDict)
  | DataInitial (initial : gmap string (option string)).

(** The keyword arguments of a form: [None] for an absent key. *)
Record FormKwargs := {
  kw_initial : gmap string (option string);
  kw_prefix : option string;
  kw_data : option FormData;
  kw_files : option QueryDict;
  kw_options : option (odict Choices);
}.

(** A form instance: its fields and what it was built from. *)
Record Form := {
  fields : odict Field;
  form_kwargs : FormKwargs;
}.

(** What the code calls in the framework and does not define: the parser
    behind [QueryDict(query_string)], the template engine behind
    [render_to_string(template_name, {'messages': messages}, request)], and
    the widget rendering behind [str(form[field_name])] for a field of the
    form. *)
Class Framework := {
  parse_qs : string -> QueryDict;
  render_to_string : string -> list string -> HttpRequest -> string;
  render_bound_field : Form -> string -> string;
}.

(** A handler: it may write to the request (the message storage lives
    there) and gives a response.  A middleware that tests the request after
    calling the handler tests the request the handler hands back. *)
Definition Handler : Type := HttpRequest -> HttpRequest * HttpResponse.

End Django.

Import Django.

(** ** django_htmx_cbv/middleware.py *)
Module Cbv.

(** The settings the module reads with [getattr(settings, name, default)]:
    [None] when the project does not define the name. *)
Record Settings := {
  DEFAULT_PARTIAL_NAME : option string;
  MESSAGES_TEMPLATE_NAME : option string;
  DEBUG : bool;
}.

Section Middleware.
Context `{Framework} (settings : Settings).

(** [HtmxVaryMiddleware.__call__] *)
Definition HtmxVaryMiddleware (get_response : Handler) : Handler :=
  fun request =>
    let '(request, response) := get_response request in
    let response :=
      if htmx_bool (htmx request)
      then set_header response "Vary" "HX-Request"
      else response in
    (request, response).

(** [HttpVerbViewMiddleware.process_view], in its three steps: the
    assignment of [QUERY], the chain of tests on the verb that assigns
    [BODY], and the [_method] override.  The result is the request after the
    call (the method returns [None], so the view runs next). *)
Definition assign_BODY (request : HttpRequest) : HttpRequest :=
  if bool_decide (method request ∈ ["GET"; "DELETE"]) then
    set_BODY request ∅
  else if bool_decide (method request = "POST") then
    set_BODY request (POST request)
  else if bool_decide (method request ∈ ["PUT"; "PATCH"]) then
    if bool_decide (content_type request = "application/x-www-form-urlencoded")
    then set_BODY request (parse_qs (body request))
    else request
  else request.

Definition override_method (request : HttpRequest) : HttpRequest :=
  if negb (htmx_bool (htmx request)) then
    match or_else (qd_get (POST request) "_method")
                  (qd_get (GET request) "_method") with
    | Some _method =>
        if truthy _method then set_method request (upper _method) else request
    | None => request
    end
  else request.

Definition process_view (request : HttpRequest) : HttpRequest :=
  let request := set_QUERY request (GET request) in
  let request := assign_BODY request in
  override_method request.

(** [HtmxPartialTemplateMiddleware] *)
Definition default_partial_name : string :=
  default "main" (DEFAULT_PARTIAL_NAME settings).

Definition HtmxPartialTemplateMiddleware (get_response : Handler)
    (request : HttpRequest) : result (HttpRequest * HttpResponse) :=
  let '(request, response) := get_response request in
  if htmx_bool (htmx request) && bool_decide (status_code response = 302) then
    u ← url response;
    Ok (request, HttpResponseClientRedirect u)
  else Ok (request, response).

(** The name after the three-way choice of [process_template_response];
    [dflt] is [self.default_partial_name]. *)
Definition partial_name_of (dflt : string) (request : HttpRequest)
    (response : HttpResponse) : string :=
  match header_get (resp_headers response) "HX-Retarget" with
  | Some (String _ _ as retarget_id) => strip "#" retarget_id
  | _ =>
      match header_get (resp_headers response) "HX-Partial-Name" with
      | Some (String _ _ as partial_name) => partial_name
      | _ =>
          match htmx_target (htmx request) with
          | Some (String _ _ as target) => target
          | _ => dflt
          end
      end
  end.

(** One element of the list comprehension *)
Definition with_partial (partial_name template_name : string) : string :=
  if negb (contains "#" template_name)
  then template_name +:+ "#" +:+ partial_name
  else template_name.

(** The body of [process_template_response] for a default partial name.
    [response.template_name] is a list of names, as the views'
    [render_to_response] gives it; a single name given as a [str] would be
    taken apart character by character and is not modelled. *)
Definition template_response_with (dflt : string) (request : HttpRequest)
    (response : HttpResponse) : result HttpResponse :=
  if htmx_bool (htmx request) then
    let partial_name := partial_name_of dflt request response in
    match cls response with
    | TemplateResponse template_name =>
        Ok (set_cls response
              (TemplateResponse (with_partial partial_name <$> template_name)))
    | _ => Raise (AttributeError "template_name")
    end
  else Ok response.

Definition process_template_response :=
  template_response_with default_partial_name.

(** [HtmxMessageMiddleware] *)
Definition messages_template : string :=
  default "messages.html" (MESSAGES_TEMPLATE_NAME settings).

(** Where [__call__] leaves: at one of the three early returns, or past
    them at the message step. *)
Inductive Exit : Type :=
  | AtHxRedirect
  | AtNotHtmx
  | AtRedirection
  | AtMessages.

Definition guards (request : HttpRequest) (response : HttpResponse) : Exit :=
  if header_in "HX-Redirect" (resp_headers response) then AtHxRedirect
  else if negb (header_in "HX-Request" (headers request)) then AtNotHtmx
  else if (300 <=? status_code response) && (status_code response <? 400)
  then AtRedirection
  else AtMessages.

(** The message step: [get_messages(request)] is the request's storage,
    truthy when it holds a message. *)
Definition add_messages (template : string) (request : HttpRequest)
    (response : HttpResponse) : HttpResponse :=
  match _messages request with
  | [] => response
  | messages =>
      let html := render_to_string template messages request in
      if bool_decide (status_code response = 204)
      then new_HttpResponse html 200
      else write response html
  end.

Definition HtmxMessageMiddleware (get_response : Handler) : Handler :=
  fun request =>
    let '(request, response) := get_response request in
    match guards request response with
    | AtMessages => (request, add_messages messages_template request response)
    | _ => (request, response)
    end.

End Middleware.
End Cbv.

(** ** django_htmx_cbvs/middleware.py

    [HtmxVaryMiddleware], [HtmxPartialTemplateMiddleware.__call__] and the
    method override of [process_view] read the same as in django_htmx_cbv. *)
Module Cbvs.

Section Middleware.
Context `{Framework}.

Definition HtmxVaryMiddleware : Handler -> Handler := Cbv.HtmxVaryMiddleware.

(** [request.BODY = request.POST.copy() or QueryDict(request.body)].
    For a multipart request whose POST is empty the framework has consumed
    the stream and reading [request.body] raises; the model follows the
    requests whose body can be read. *)
Definition assign_BODY (request : HttpRequest) : HttpRequest :=
  set_BODY request
    (if qd_truthy (POST request) then POST request
     else parse_qs (body request)).

Definition process_view (request : HttpRequest) : HttpRequest :=
  let request := set_QUERY request (GET request) in
  let request := assign_BODY request in
  Cbv.override_method request.

Definition DEFAULT_PARTIAL_NAME : string := "main".

Definition HtmxPartialTemplateMiddleware
  : Handler -> HttpRequest -> result (HttpRequest * HttpResponse) :=
  Cbv.HtmxPartialTemplateMiddleware.

Definition process_template_response :=
  Cbv.template_response_with DEFAULT_PARTIAL_NAME.

Definition guards (request : HttpRequest) (response : HttpResponse)
    : Cbv.Exit :=
  if negb (header_in "HX-Request" (headers request)) then Cbv.AtNotHtmx
  else if (300 <=? status_code response) && (status_code response <? 400)
  then Cbv.AtRedirection
  else if header_in "HX-Redirect" (resp_headers response) then Cbv.AtHxRedirect
  else Cbv.AtMessages.

Definition HtmxMessageMiddleware (get_response : Handler) : Handler :=
  fun request =>
    let '(request, response) := get_response request in
    match guards request response with
    | Cbv.AtMessages =>
        (request, Cbv.add_messages "messages.html" request response)
    | _ => (request, response)
    end.

End Middleware.
End Cbvs.

(** ** django_htmx_cbv/forms.py *)
Module Forms.

(** The body of the loop of [HtmxChainedForm.__init__] for one option *)
Definition set_choices (field_name : string) (form_field : Field)
    (choices : Choices) : result Field :=
  if has_queryset form_field then
    match choices with
    | QuerySet _ => Ok (ModelChoiceField choices)
    | _ =>
        Raise (TypeError
                 ("The choices for " +:+ field_name +:+ " must be a QuerySet!"))
    end
  else if has_choices form_field then
    match choices with
    | ChoiceList _ => Ok (ChoiceField choices)
    | _ =>
        Raise (TypeError
                 ("The choices for " +:+ field_name
                  +:+ " must be a list of tuples!"))
    end
  else Ok form_field.

Fixpoint apply_options (fields : odict Field) (options : odict Choices)
    : result (odict Field) :=
  match options with
  | [] => Ok fields
  | (field_name, choices) :: options' =>
      match odict_get fields field_name with
      | None => Raise (KeyError field_name)
      | Some form_field =>
          form_field ← set_choices field_name form_field choices;
          apply_options (odict_set fields field_name form_field) options'
      end
  end.

(** Instantiating a subclass of [HtmxChainedForm] that has these
    [base_fields], with the keyword arguments [kwargs] *)
Definition HtmxChainedForm (base_fields : odict Field) (kwargs : FormKwargs)
    : result Form :=
  fields ← match kw_options kwargs with
           | Some options => apply_options base_fields options
           | None => Ok base_fields
           end;
  Ok {| fields := fields; form_kwargs := kwargs |}.

End Forms.

(** ** django_htmx_cbv/views.py *)
Module Views.

(** [request.QUERY] and [request.BODY]: an [AttributeError] while
    unassigned *)
Definition attr_QUERY (request : HttpRequest) : result QueryDict :=
  match QUERY request with
  | Some q => Ok q
  | None => Raise (AttributeError "QUERY")
  end.

Definition attr_BODY (request : HttpRequest) : result QueryDict :=
  match BODY request with
  | Some q => Ok q
  | None => Raise (AttributeError "BODY")
  end.

(** [self.render_to_response(context)]: an unrendered template response
    with the view's template names *)
Definition render_to_response (template_names : list string) : HttpResponse :=
  {| status_code := 200; resp_headers := default_headers; content := "";
     cls := TemplateResponse template_names |}.

(** What a subclass of the form views sets or overrides: the form class
    (its [base_fields]), [initial], [prefix], [http_method_names],
    the template names, [get_success_url], and the methods the base classes
    leave to it ([None]: not overridden). *)
Record FormViewClass := {
  base_fields : odict Field;
  initial : gmap string (option string);
  prefix : option string;
  http_method_names : list string;
  template_names : list string;
  get_success_url : result string;
  get_options_override : option (HttpRequest -> odict Choices);
  delete_override : option (HttpRequest -> result HttpResponse);
}.

Section FormViews.
Context `{Framework} (view : FormViewClass).

(** [HtmxFormMixin.form_invalid]; the [super()] call renders the form
    again (the debug print of the form errors leaves no trace in the
    response).  A header holds the value it is given, as the framework
    does for printable ASCII text. *)
Definition form_invalid (request : HttpRequest) : result HttpResponse :=
  let response := render_to_response (template_names view) in
  if htmx_bool (htmx request) then
    match htmx_trigger (htmx request) with
    | None =>
        Raise (ImproperlyConfigured
          ("HtmxFormMixin requires that requests are triggered by a form "
           +:+ "with an HTML id and matching partial block name."))
    | Some trigger =>
        let response := set_header response "HX-Retarget" ("#" +:+ trigger) in
        Ok (set_header response "HX-Reswap" "outerHTML")
    end
  else Ok response.

(** [HyperFormMixin.get_initial] *)
Definition get_initial (request : HttpRequest)
    : result (gmap string (option string)) :=
  if bool_decide (http_method_names view ≠ ["get"]) then
    q ← attr_QUERY request;
    if qd_truthy q then
      Ok (filter (λ kv, is_Some (odict_get (base_fields view) kv.1)) (qd_dict q)
          ∪ initial view)
    else Ok (initial view)
  else Ok (initial view).

Definition with_data (kwargs : FormKwargs) (data : FormData)
    (files : QueryDict) : FormKwargs :=
  {| kw_initial := kw_initial kwargs; kw_prefix := kw_prefix kwargs;
     kw_data := Some data; kw_files := Some files;
     kw_options := kw_options kwargs |}.

Definition with_options (kwargs : FormKwargs) (options : odict Choices)
    : FormKwargs :=
  {| kw_initial := kw_initial kwargs; kw_prefix := kw_prefix kwargs;
     kw_data := kw_data kwargs; kw_files := kw_files kwargs;
     kw_options := Some options |}.

(** The framework's [FormMixin.get_form_kwargs], which the chain of
    [super()] calls ends in *)
Definition FormMixin_get_form_kwargs (request : HttpRequest)
    : result FormKwargs :=
  initial ← get_initial request;
  let kwargs :=
    {| kw_initial := initial; kw_prefix := prefix view; kw_data := None;
       kw_files := None; kw_options := None |} in
  if bool_decide (method request ∈ ["POST"; "PUT"])
  then Ok (with_data kwargs (DataQuery (POST request)) (FILES request))
  else Ok kwargs.

(** [HyperFormMixin.get_form_kwargs] *)
Definition HyperFormMixin_get_form_kwargs (request : HttpRequest)
    : result FormKwargs :=
  kwargs ← FormMixin_get_form_kwargs request;
  if bool_decide (http_method_names view = ["get"]) then
    q ← attr_QUERY request;
    if qd_truthy q then Ok (with_data kwargs (DataQuery q) (FILES request))
    else if bool_decide (kw_initial kwargs ≠ ∅)
    then Ok (with_data kwargs (DataInitial (kw_initial kwargs)) (FILES request))
    else Ok kwargs
  else if bool_decide (method request ≠ "GET") then
    b ← attr_BODY request;
    Ok (with_data kwargs (DataQuery b) (FILES request))
  else Ok kwargs.

(** [HyperFormMixin.form_valid]; the [super()] call redirects to the
    success URL. *)
Definition form_valid (request : HttpRequest) : result HttpResponse :=
  if bool_decide (method request = "GET") then
    Raise (ImproperlyConfigured
      ("Views that inherit from HyperFormMixin must implement "
       +:+ "a custom `form_valid()` for forms with [method=get]."))
  else
    success_url ← get_success_url view;
    Ok (HttpResponseRedirect success_url).

(** [ProcessHyperFormView.delete], and the method a DELETE request is
    dispatched to *)
Definition ProcessHyperFormView_delete (request : HttpRequest)
    : result HttpResponse :=
  Raise (ImproperlyConfigured
    ("ProcessHyperFormView requires that subclasses define their "
     +:+ "own `delete()` methods.")).

Definition delete (request : HttpRequest) : result HttpResponse :=
  match delete_override view with
  | Some f => f request
  | None => ProcessHyperFormView_delete request
  end.

(** [HtmxChainedFormView] *)
Definition HtmxChainedFormView_get_options : result (odict Choices) :=
  Raise (ImproperlyConfigured
    ("HtmxChainedFormView requires an implementation "
     +:+ "of `get_options()` that returns a dictionary "
     +:+ "of the form {field_name: [choices]}. If form "
     +:+ "values are required, they should be specified "
     +:+ "via `hx-include`.")).

Definition get_options (request : HttpRequest) : result (odict Choices) :=
  match get_options_override view with
  | Some f => Ok (f request)
  | None => HtmxChainedFormView_get_options
  end.

Definition HtmxChainedFormView_get_form_kwargs (request : HttpRequest)
    : result FormKwargs :=
  kwargs ← HyperFormMixin_get_form_kwargs request;
  if htmx_bool (htmx request) then
    options ← get_options request;
    Ok (with_options kwargs options)
  else Ok kwargs.

Definition form_field_ids : list string :=
  ((λ '(field_name, _), "id_" +:+ field_name)
     <$> filter (λ '(_, field), has_choices field = true) (base_fields view))
  ++ ["id_choices"].

(** [form[field_name]] rendered with [str] *)
Definition bound_field (form : Form) (field_name : string) : result string :=
  match odict_get (fields form) field_name with
  | Some _ => Ok (render_bound_field form field_name)
  | None => Raise (KeyError field_name)
  end.

(** [request.htmx.target in form_field_ids] *)
Definition target_in (request : HttpRequest) (ids : list string) : bool :=
  match htmx_target (htmx request) with
  | Some target => bool_decide (target ∈ ids)
  | None => false
  end.

Definition HtmxChainedFormView_get (request : HttpRequest)
    : result HttpResponse :=
  if target_in request form_field_ids then
    kwargs ← HtmxChainedFormView_get_form_kwargs request;
    form ← Forms.HtmxChainedForm (base_fields view) kwargs;
    options ← match kw_options kwargs with
              | Some options => Ok options
              | None => Raise (KeyError "options")
              end;
    html ← traverse (bound_field form) options.*1;
    Ok (new_HttpResponse (String.concat "" html) 200)
  else Ok (new_HttpResponse "" 204).

End FormViews.

(** Model instances.  A primary key is an [int] or a [str].  A field of the
    instance is a many-to-many relation (the primary keys on the other
    side, and the conversion of a text to such a key that the related
    model's primary-key field does, [None] where it raises), a foreign key
    or one-to-one relation (the related object's primary key, or [None]),
    or a plain value. *)
Inductive Pk : Type :=
  | IntPk (n : Z)
  | StrPk (s : string).

#[global] Instance Pk_eq_dec : EqDecision Pk.
Proof. solve_decision. Defined.

Inductive FieldValue : Type :=
  | ManyToMany (prep : string -> option Pk) (related : list Pk)
  | Related (related_obj : option Pk)
  | Plain (value : string).

(** An instance with what happened to its row: [saved] collects the
    [update_fields] of each [save]. *)
Record Instance := {
  field_values : odict FieldValue;
  saved : list (list string);
}.

(** [related_obj.pk == requested_pk], where [requested_pk] is a [str]: an
    [int] never equals it *)
Definition pk_eq (pk : Pk) (requested_pk : string) : bool :=
  match pk with
  | IntPk _ => false
  | StrPk s => bool_decide (s = requested_pk)
  end.

(** What a subclass of [ModelFormView] brings: the lookup of the object
    ([get_object] raises [AttributeError] when the URL names none), its
    [has_permission] if it defines one, what [get_success_message] gives
    for the empty dict of cleaned data (the formatted message, or the
    exception of the formatting) and the attributes of the form view. *)
Record ModelViewClass := {
  get_object : HttpRequest -> result Instance;
  has_permission_override : option (HttpRequest -> Instance -> bool);
  get_success_message : result string;
  form_view : FormViewClass;
}.

Section ModelViews.
Context (view : ModelViewClass).

(** [SingleObjectPermissionMixin.has_permission], and the method that
    [self.has_permission] resolves to *)
Definition SingleObjectPermissionMixin_has_permission
    (request : HttpRequest) (obj : Instance) : result bool :=
  Raise (ImproperlyConfigured
    ("SingleObjectPermissionMixin requires that subclasses define a "
     +:+ "`has_permission()` method for determining if the request "
     +:+ "is allowed or not.")).

Definition has_permission (request : HttpRequest) (obj : Instance)
    : result bool :=
  match has_permission_override view with
  | Some f => Ok (f request obj)
  | None => SingleObjectPermissionMixin_has_permission request obj
  end.

(** [SingleObjectPermissionMixin.setup]: the value of [self.object] *)
Definition setup (request : HttpRequest) : result (option Instance) :=
  match get_object view request with
  | Raise (AttributeError _) => Ok None
  | Raise e => Raise e
  | Ok obj =>
      allowed ← has_permission request obj;
      if negb allowed then Raise PermissionDenied else Ok (Some obj)
  end.

(** The primary keys that [remove] is given as texts, converted by the
    related model's primary-key field before any row is removed: a
    ValueError when a text is no such key (its message names such a text;
    the model names the first) *)
Fixpoint prep_all (prep : string -> option Pk) (values : list string)
    : result (list Pk) :=
  match values with
  | [] => Ok []
  | value :: values' =>
      match prep value with
      | None => Raise (ValueError value)
      | Some pk => pks ← prep_all prep values'; Ok (pk :: pks)
      end
  end.

(** [ModelFormView.delete]: the body of the loop for one related name *)
Definition delete_related (query : QueryDict) (obj : Instance) (name : string)
    : result Instance :=
  match odict_get (field_values obj) name with
  | Some (ManyToMany prep related) =>
      pks ← prep_all prep (qd_getlist query name);
      let remaining := filter (λ pk, pk ∉ pks) related in
      Ok {| field_values :=
              odict_set (field_values obj) name (ManyToMany prep remaining);
            saved := saved obj |}
  | Some (Related (Some related_obj)) =>
      match qd_get query name with
      | Some (String _ _ as requested_pk) =>
          if pk_eq related_obj requested_pk then
            Ok {| field_values := odict_set (field_values obj) name (Related None);
                  saved := saved obj ++ [[name]] |}
          else Raise BadRequest
      | _ => Ok obj
      end
  | Some (Related None) => Ok obj
  | Some (Plain value) =>
      if truthy value && opt_truthy (qd_get query name)
      then Raise (AttributeError "pk")
      else Ok obj
  | None => Raise (AttributeError name)
  end.

Fixpoint delete_all_related (query : QueryDict) (obj : Instance)
    (names : list string) : result Instance :=
  match names with
  | [] => Ok obj
  | name :: names' =>
      obj ← delete_related query obj name;
      delete_all_related query obj names'
  end.

(** The set [field_names & param_names], listed in the order of the
    instance's fields.  The loop visits the set in the order Python gives
    a set, which is [set_order] of this list below. *)
Definition related_names (query : QueryDict) (obj : Instance) : list string :=
  filter (λ name, is_Some (query !! name)) (field_values obj).*1.

(** [messages.error(request, message)] *)
Definition add_message (request : HttpRequest) (message : string)
    : HttpRequest :=
  {| method := method request; content_type := content_type request;
     headers := headers request; GET := GET request; POST := POST request;
     FILES := FILES request; body := body request; htmx := htmx request;
     QUERY := QUERY request; BODY := BODY request;
     _messages := _messages request ++ [message] |}.

(** [ModelFormView.delete], for the iteration order [set_order] of the set
    of related names.  The object comes back as [None] when its row was
    deleted. *)
Definition ModelFormView_delete (set_order : list string -> list string)
    (obj : Instance) (request : HttpRequest)
    : result (option Instance * HttpRequest * HttpResponse) :=
  query ← attr_QUERY request;
  let names := set_order (related_names query obj) in
  obj ← delete_all_related query obj names;
  let kept :=
    match names with
    | [] => None
    | _ => Some obj
    end in
  message ← get_success_message view;
  let request :=
    if truthy message then add_message request message else request in
  if htmx_bool (htmx request) then
    let request := set_method request "GET" in
    Ok (kept, request, render_to_response (template_names (form_view view)))
  else
    success_url ← get_success_url (form_view view);
    Ok (kept, request, HttpResponseRedirect success_url).

End ModelViews.
End Views.

(** ** A concrete framework and concrete requests

    A plain instance of the framework functions, to run the code on
    examples: a query string is cut at every "&" and each piece at its
    first "=" (no escape is decoded), messages are rendered as list items
    and a bound field as a [select] element. *)
Module Sample.

(** [s.split(sep)] without the leading piece, which [acc] collects *)
Fixpoint split_acc (sep : ascii) (acc s : string) : list string :=
  match s with
  | EmptyString => [acc]
  | String c s' =>
      if Ascii.eqb c sep then acc :: split_acc sep "" s'
      else split_acc sep (acc +:+ String c "") s'
  end.

Definition split (sep : ascii) (s : string) : list string := split_acc sep "" s.

Definition key_value (piece : string) : string * string :=
  match split "=" piece with
  | key :: values => (key, String.concat "=" values)
  | [] => (piece, "")
  end.

Definition appendlist (q : QueryDict) (piece : string) : QueryDict :=
  match piece with
  | EmptyString => q
  | _ => let '(key, value) := key_value piece in
         <[key := (qd_getlist q key ++ [value])%list]> q
  end.

Definition parse (query_string : string) : QueryDict :=
  foldl appendlist ∅ (split "&" query_string).

Definition render_messages (template : string) (messages : list string)
    (request : HttpRequest) : string :=
  "<output id='messages' hx-swap-oob='true'>"
  +:+ String.concat "" ((λ m, "<li>" +:+ m +:+ "</li>") <$> messages)
  +:+ "</output>".

Definition render_field (form : Form) (field_name : string) : string :=
  "<select id='id_" +:+ field_name +:+ "'></select>".

Definition framework : Framework :=
  {| parse_qs := parse; render_to_string := render_messages;
     render_bound_field := render_field |}.

Definition no_htmx : HtmxDetails :=
  {| htmx_bool := false; htmx_target := None; htmx_trigger := None |}.

Definition hx (target : option string) : HtmxDetails :=
  {| htmx_bool := true; htmx_target := target; htmx_trigger := None |}.

Definition hx_headers : Headers := header_set ∅ "HX-Request" "true".

(** A request as it enters the middleware: [QUERY] and [BODY] unassigned *)
Definition request (verb ctype query raw : string) (post : QueryDict)
    (details : HtmxDetails) (hdrs : Headers) (msgs : list string)
    : HttpRequest :=
  {| method := verb; content_type := ctype; headers := hdrs;
     GET := parse query; POST := post; FILES := ∅; body := raw;
     htmx := details; QUERY := None; BODY := None; _messages := msgs |}.

Definition page : HttpResponse :=
  {| status_code := 200; resp_headers := default_headers;
     content := "<main></main>"; cls := TemplateResponse ["page.html"] |}.

(** Settings that leave every name undefined, and settings that name the
    default partial *)
Definition defaults : Cbv.Settings :=
  {| Cbv.DEFAULT_PARTIAL_NAME := None; Cbv.MESSAGES_TEMPLATE_NAME := None;
     Cbv.DEBUG := false |}.

Definition configured : Cbv.Settings :=
  {| Cbv.DEFAULT_PARTIAL_NAME := Some "content";
     Cbv.MESSAGES_TEMPLATE_NAME := None; Cbv.DEBUG := false |}.

(** An HTMX GET request without a target, and the same with the target
    [text] *)
Definition hx_get : HttpRequest :=
  request "GET" "" "" "" ∅ (hx None) hx_headers [].

Definition hx_get_text : HttpRequest :=
  request "GET" "" "" "" ∅ (hx (Some "text")) hx_headers [].

(** Requests that are not HTMX requests: a PUT with a JSON body, a DELETE
    with a form-encoded body, a form-encoded PUT, and a form POST that
    overrides its method, with the [request.POST] the framework parses for
    each *)
Definition put_json : HttpRequest :=
  request "PUT" "application/json" "" "{}" ∅ no_htmx ∅ [].

Definition delete_form : HttpRequest :=
  request "DELETE" "application/x-www-form-urlencoded" "foo=bar" "x=1" ∅
    no_htmx ∅ [].

Definition put_form : HttpRequest :=
  request "PUT" "application/x-www-form-urlencoded" "foo=bar" "int=1&str=1" ∅
    no_htmx ∅ [].

Definition post_override : HttpRequest :=
  request "POST" "application/x-www-form-urlencoded" "" "_method=patch&foo=bar"
    (parse "_method=patch&foo=bar") no_htmx ∅ [].

(** An HTMX request with a pending message, and a response without
    content *)
Definition hx_get_message : HttpRequest :=
  request "GET" "" "" "" ∅ (hx None) hx_headers ["Message successful!"].

Definition no_content : HttpResponse := new_HttpResponse "" 204.

(** A chained form with a [country] and a [city] choice field and a
    [name]; a view that leaves [get_options] and [delete] to the base
    classes, and one that gives the cities *)
Definition chained_fields : odict Field :=
  [("country", ChoiceField (ChoiceList [("fr", "France")]));
   ("city", ChoiceField (ChoiceList []));
   ("name", PlainField)].

Definition bare_view : Views.FormViewClass :=
  {| Views.base_fields := chained_fields; Views.initial := ∅;
     Views.prefix := None;
     Views.http_method_names := ["get"; "post"; "put"; "patch"; "delete"];
     Views.template_names := ["form.html"];
     Views.get_success_url := Ok "/page/";
     Views.get_options_override := None;
     Views.delete_override := None |}.

Definition city_options (request : HttpRequest) : odict Choices :=
  [("city", ChoiceList [("par", "Paris"); ("lyo", "Lyon")])].

Definition city_view : Views.FormViewClass :=
  {| Views.base_fields := chained_fields; Views.initial := ∅;
     Views.prefix := None;
     Views.http_method_names := ["get"; "post"; "put"; "patch"; "delete"];
     Views.template_names := ["form.html"];
     Views.get_success_url := Ok "/page/";
     Views.get_options_override := Some city_options;
     Views.delete_override := None |}.

(** The HTMX request that a change of the country select sends, with the
    city select as its target, once [process_view] has run *)
Definition hx_city : HttpRequest :=
  Cbv.process_view (H := framework)
    (request "GET" "" "country=fr" "" ∅ (hx (Some "id_city")) hx_headers []).

(** A book with an author whose primary key is the text [7], and a model
    view whose [has_permission] refuses every request *)
Definition book : Views.Instance :=
  {| Views.field_values :=
       [("title", Views.Plain "Emma");
        ("author", Views.Related (Some (Views.StrPk "7")));
        ("tags",
         Views.ManyToMany (λ text, Some (Views.StrPk text))
           [Views.StrPk "1"; Views.StrPk "2"])];
     Views.saved := [] |}.

Definition refusing_view : Views.ModelViewClass :=
  {| Views.get_object := λ _, Ok book;
     Views.has_permission_override := Some (λ _ _, false);
     Views.get_success_message := Ok "";
     Views.form_view := bare_view |}.

(** A DELETE that asks to drop the author [8] of the book, once
    [process_view] has run *)
Definition delete_author : HttpRequest :=
  Cbv.process_view (H := framework)
    (request "DELETE" "" "author=8" "" ∅ no_htmx ∅ []).

(** A handler that answers every request with [response] *)
Definition answer (response : HttpResponse) : Handler :=
  λ request, (request, response).

End Sample.

(** ** The wording of the specification *)
Module Spec.

(** A header or parameter that is absent or empty gives no value. *)
Definition no_value (o : option string) : Prop := o = None ∨ o = Some "".

(** The partial name "chosen by the first applicable rule", with [dflt]
    the default partial name. *)
Inductive partial_name_rule (dflt : string) (request : HttpRequest)
    (response : HttpResponse) : string -> Prop :=
  | by_retarget v :
      header_get (resp_headers response) "HX-Retarget" = Some v ->
      v ≠ "" ->
      partial_name_rule dflt request response (strip "#" v)
  | by_partial_name v :
      no_value (header_get (resp_headers response) "HX-Retarget") ->
      header_get (resp_headers response) "HX-Partial-Name" = Some v ->
      v ≠ "" ->
      partial_name_rule dflt request response v
  | by_target v :
      no_value (header_get (resp_headers response) "HX-Retarget") ->
      no_value (header_get (resp_headers response) "HX-Partial-Name") ->
      htmx_target (htmx request) = Some v ->
      v ≠ "" ->
      partial_name_rule dflt request response v
  | by_default :
      no_value (header_get (resp_headers response) "HX-Retarget") ->
      no_value (header_get (resp_headers response) "HX-Partial-Name") ->
      no_value (htmx_target (htmx request)) ->
      partial_name_rule dflt request response dflt.

(** A template name and what it is rewritten to *)
Inductive rewritten (partial_name : string) : string -> string -> Prop :=
  | rewritten_add name :
      contains "#" name = false ->
      rewritten partial_name name (name +:+ "#" +:+ partial_name)
  | rewritten_keep name :
      contains "#" name = true ->
      rewritten partial_name name name.

(** The three conditions under which the message middleware hands the
    response back as it is *)
Definition skips (request : HttpRequest) (response : HttpResponse) : Prop :=
  header_in "HX-Redirect" (resp_headers response) = true
  ∨ header_in "HX-Request" (headers request) = false
  ∨ 300 <= status_code response < 400.

(** The five verbs *)
Definition verbs : list string := ["GET"; "POST"; "PUT"; "PATCH"; "DELETE"].

(** The three exception types the specification names *)
Definition framework_exception (e : exn) : Prop :=
  match e with
  | ImproperlyConfigured _ | PermissionDenied | BadRequest => True
  | _ => False
  end.

End Spec.

(** Membership of the method in a list of verbs, read as a choice between
    the verbs *)
Ltac verb_cases :=
  repeat match goal with
         | Hin : context [_ ∈ _ :: _] |- _ => rewrite elem_of_cons in Hin
         | Hin : context [_ ∈ []] |- _ => rewrite elem_of_nil in Hin
         end;
  rewrite ?elem_of_cons, ?elem_of_nil;
  intuition congruence.

(** ** The rest of the view mixins, and more sample data *)
Module Mixins.

Section HtmxFormMixin.
Context (view : Views.FormViewClass).

(** [HtmxFormMixin.form_valid], mixed in before [HyperFormMixin] as its
    docstring asks: the [super()] call is [HyperFormMixin.form_valid], and
    an HTMX request gets the form rendered again instead of the redirect. *)
Definition form_valid (request : HttpRequest) : result HttpResponse :=
  response ← Views.form_valid view request;
  if htmx_bool (htmx request)
  then Ok (Views.render_to_response (Views.template_names view))
  else Ok response.

End HtmxFormMixin.

(** Texts on which the model and the interpreter agree byte for byte: a
    text of ASCII characters (where [upper] is [str.upper]), a text of
    printable ASCII characters (a header value that the framework stores
    as it is), and a path that starts with "/" and is made of the
    characters that [iri_to_uri] keeps (the [Location] that a redirect to it
    carries is the path itself). *)
Definition is_ascii (s : string) : bool :=
  forallb (λ c, (N_of_ascii c <? 128)%N) (list_ascii_of_string s).

Definition printable (s : string) : bool :=
  forallb (λ c, ((32 <=? N_of_ascii c) && (N_of_ascii c <=? 126))%N)
    (list_ascii_of_string s).



(** The two [isinstance] tests of [HtmxChainedForm.__init__] as one
    question: does this field take these choices without a [TypeError]? *)
Definition accepts (form_field : Field) (choices : Choices) : bool :=
  match form_field, choices with
  | ModelChoiceField _, QuerySet _ => true
  | ModelChoiceField _, _ => false
  | ChoiceField _, ChoiceList _ => true
  | ChoiceField _, _ => false
  | PlainField, _ => true
  end.

(** An option that a form with these fields takes: it names one of the
    fields, and the field accepts its choices. *)
Definition taken (fields : odict Field) (option : string * Choices) : Prop :=
  ∃ f, odict_get fields option.1 = Some f ∧ accepts f option.2 = true.

(** The names of the options among the keyword arguments *)
Definition option_names (kwargs : FormKwargs) : list string :=
  (default [] (kw_options kwargs)).*1.

(** The field after [form_field.queryset = choices] or
    [form_field.choices = choices] *)
Definition with_choices (form_field : Field) (choices : Choices) : Field :=
  match form_field with
  | ModelChoiceField _ => ModelChoiceField choices
  | ChoiceField _ => ChoiceField choices
  | PlainField => PlainField
  end.

(** The keyword arguments of the chained form with the cities as options,
    and those of a form that is given a list for its authors *)
Definition city_kwargs : FormKwargs :=
  {| kw_initial := ∅; kw_prefix := None; kw_data := None; kw_files := None;
     kw_options := Some (Sample.city_options Sample.hx_city) |}.

Definition author_fields : odict Field :=
  [("author", ModelChoiceField (QuerySet ["1"; "2"]))].

Definition author_list_kwargs : FormKwargs :=
  {| kw_initial := ∅; kw_prefix := None; kw_data := None; kw_files := None;
     kw_options := Some [("author", ChoiceList [("1", "Ann")])] |}.

(** A GET-only view with a search form, and a search for [htmx] *)
Definition search_view : Views.FormViewClass :=
  {| Views.base_fields := [("q", PlainField)]; Views.initial := ∅;
     Views.prefix := None; Views.http_method_names := ["get"];
     Views.template_names := ["search.html"];
     Views.get_success_url := Ok "/search/";
     Views.get_options_override := None;
     Views.delete_override := None |}.

Definition search_request : HttpRequest :=
  Cbv.process_view (H := Sample.framework)
    (Sample.request "GET" "" "q=htmx" "" ∅ Sample.no_htmx ∅ []).

(** A GET that names the city select as its target but is no HTMX request,
    once [process_view] has run *)
Definition plain_city : HttpRequest :=
  Cbv.process_view (H := Sample.framework)
    (Sample.request "GET" "" "" "" ∅
       {| htmx_bool := false; htmx_target := Some "id_city";
          htmx_trigger := None |} ∅ []).

(** An HTMX POST of the form with the id [signup], once [process_view] has
    run, and a book whose author has the integer primary key 7 *)
Definition hx_post_signup : HttpRequest :=
  Cbv.process_view (H := Sample.framework)
    (Sample.request "POST" "application/x-www-form-urlencoded" "" "name=Ann"
       (Sample.parse "name=Ann")
       {| htmx_bool := true; htmx_target := Some "signup";
          htmx_trigger := Some "signup" |}
       Sample.hx_headers []).

(** A related model whose primary keys are written with one or two
    decimal digits, and the conversion of a text to such a key: "02" is the
    key 2, "abc" is none. *)
Definition digit (c : ascii) : option Z :=
  let n := Z.of_N (N_of_ascii c) in
  if (48 <=? n) && (n <=? 57) then Some (n - 48) else None.

Definition small_int (text : string) : option Views.Pk :=
  match text with
  | String a EmptyString => Views.IntPk <$> digit a
  | String a (String b EmptyString) =>
      x ← digit a; y ← digit b; Some (Views.IntPk (10 * x + y))
  | _ => None
  end.

Definition numbered_book : Views.Instance :=
  {| Views.field_values :=
       [("tags", Views.ManyToMany small_int [Views.IntPk 1; Views.IntPk 2]);
        ("author", Views.Related (Some (Views.IntPk 7)))];
     Views.saved := [] |}.

(** A model view that allows every request and has a success message *)
Definition open_view : Views.ModelViewClass :=
  {| Views.get_object := λ _, Ok Sample.book;
     Views.has_permission_override := Some (λ _ _, true);
     Views.get_success_message := Ok "Deleted.";
     Views.form_view := Sample.bare_view |}.

(** An order of iteration that reverses the list it is given *)
Definition backwards (names : list string) : list string := reverse names.

(** A DELETE without URL parameters, and one that names two tags, once
    [process_view] has run *)
Definition delete_plain : HttpRequest :=
  Cbv.process_view (H := Sample.framework)
    (Sample.request "DELETE" "" "" "" ∅ Sample.no_htmx ∅ []).

Definition delete_tags_padded : HttpRequest :=
  Cbv.process_view (H := Sample.framework)
    (Sample.request "DELETE" "" "tags=02&tags=5" "" ∅ Sample.no_htmx ∅ []).

Definition delete_tags : HttpRequest :=
  Cbv.process_view (H := Sample.framework)
    (Sample.request "DELETE" "" "tags=2&tags=5" "" ∅ Sample.no_htmx ∅ []).

End Mixins.

(** * Properties *)

(** ** The string and parameter helpers on examples *)

Example strip_both_ends : strip "#" "##a#b#" = "a#b".
Proof. reflexivity. Qed.

Example strip_only_hashes : strip "#" "##" = "".
Proof. reflexivity. Qed.

Example upper_put : upper "put" = "PUT".
Proof. reflexivity. Qed.

Example parse_pairs :
  Sample.parse "a=1&b=2&a=3" = {[ "a" := ["1"; "3"]; "b" := ["2"] ]}.
Proof. vm_compute. reflexivity. Qed.

Example get_gives_last_value :
  qd_get (Sample.parse "a=1&b=2&a=3") "a" = Some "3".
Proof. vm_compute. reflexivity. Qed.

Example header_lookup_ignores_case :
  header_get Sample.hx_headers "hx-request" = Some "true".
Proof. vm_compute. reflexivity. Qed.

(** The view of the test suite that sets HX-Retarget to [text]: the [text]
    partial is rendered whatever the target of the request. *)
Example retarget_set_by_view :
  Cbvs.process_template_response
    (Sample.request "GET" "" "" "" ∅ (Sample.hx (Some "main"))
       Sample.hx_headers [])
    (set_header Sample.page "HX-Retarget" "text")
  = Ok (set_cls (set_header Sample.page "HX-Retarget" "text")
          (TemplateResponse ["page.html#text"])).
Proof. vm_compute. reflexivity. Qed.

(** ** Headers and requests: the frame of each update *)
Section Frames.

Lemma header_get_set_eq (h : Headers) (key value : string) :
  header_get (header_set h key value) key = Some value.
Proof. unfold header_get, header_set. by rewrite lookup_insert_eq. Qed.

Lemma header_get_set_ne (h : Headers) (key key' value : string) :
  lower key ≠ lower key' ->
  header_get (header_set h key value) key' = header_get h key'.
Proof.
  intros Hne. unfold header_get, header_set. by rewrite lookup_insert_ne.
Qed.

Lemma header_in_spec (key : string) (h : Headers) :
  header_in key h = true <-> is_Some (header_get h key).
Proof.
  unfold header_in, header_get. rewrite bool_decide_eq_true.
  by rewrite fmap_is_Some.
Qed.

End Frames.

(** ** HtmxVaryMiddleware *)

(** C7. For an HTMX request the middleware hands back the inner response
    with its Vary header set to HX-Request, and the status, the body, the
    class and every other header (every other entry of the header store) as
    the inner handler left them; for any other request it hands back the
    inner response itself. *)
Theorem HtmxVaryMiddleware_sets_only_Vary
    (get_response : Handler) (request request' : HttpRequest)
    (response : HttpResponse) :
  get_response request = (request', response) ->
  (htmx_bool (htmx request') = true ->
     ∃ response',
       Cbv.HtmxVaryMiddleware get_response request = (request', response')
       ∧ header_get (resp_headers response') "Vary" = Some "HX-Request"
       ∧ status_code response' = status_code response
       ∧ content response' = content response
       ∧ cls response' = cls response
       ∧ (∀ stored, stored ≠ lower "Vary" ->
            resp_headers response' !! stored = resp_headers response !! stored)
       ∧ (∀ key, lower key ≠ lower "Vary" ->
            header_get (resp_headers response') key
            = header_get (resp_headers response) key))
  ∧ (htmx_bool (htmx request') = false ->
       Cbv.HtmxVaryMiddleware get_response request = (request', response)).
Proof.
  intros Hinner. unfold Cbv.HtmxVaryMiddleware. rewrite Hinner. split.
  - intros ->. eexists. split; [reflexivity|].
    cbn [set_header resp_headers status_code content cls].
    split; [apply header_get_set_eq|]. do 3 (split; [reflexivity|]).
    split.
    + intros stored Hne. unfold header_set. by rewrite lookup_insert_ne.
    + intros key Hne. by apply header_get_set_ne.
  - by intros ->.
Qed.

(** An HTMX GET of the page: the Vary header appears, the status and the
    body stay. *)
Lemma HtmxVaryMiddleware_sets_only_Vary_witness :
  ∃ response',
    Cbv.HtmxVaryMiddleware (λ r, (r, Sample.page))
      (Sample.request "GET" "" "" "" ∅ (Sample.hx None) Sample.hx_headers [])
    = (Sample.request "GET" "" "" "" ∅ (Sample.hx None) Sample.hx_headers [],
       response')
    ∧ header_get (resp_headers response') "Vary" = Some "HX-Request"
    ∧ status_code response' = 200
    ∧ content response' = "<main></main>".
Proof.
  destruct (HtmxVaryMiddleware_sets_only_Vary (λ r, (r, Sample.page))
              (Sample.request "GET" "" "" "" ∅ (Sample.hx None)
                 Sample.hx_headers [])
              _ _ eq_refl) as [Hhtmx _].
  destruct (Hhtmx eq_refl) as (response' & Hcall & Hvary & Hst & Hbody & _).
  exists response'. repeat split; assumption.
Defined.

(** ** HtmxPartialTemplateMiddleware *)
Section PartialName.

Lemma no_value_falsy (o : option string) :
  opt_truthy o = false <-> Spec.no_value o.
Proof.
  unfold Spec.no_value. destruct o as [[|c s]|]; cbn; split; intros Hf;
    try discriminate Hf; eauto.
  destruct Hf as [Hf|Hf]; discriminate Hf.
Qed.

(** The code's three-way choice follows the rules in their order. *)
Lemma partial_name_of_rule (dflt : string) (request : HttpRequest)
    (response : HttpResponse) :
  Spec.partial_name_rule dflt request response
    (Cbv.partial_name_of dflt request response).
Proof.
  unfold Cbv.partial_name_of.
  destruct (header_get (resp_headers response) "HX-Retarget")
    as [retarget|] eqn:Hretarget.
  { destruct retarget as [|c s].
    2: { by eapply Spec.by_retarget. }
    destruct (header_get (resp_headers response) "HX-Partial-Name")
      as [[|c s]|] eqn:Hpartial;
    [ | eapply Spec.by_partial_name; eauto; by right | ];
    (destruct (htmx_target (htmx request)) as [[|c' s']|] eqn:Htarget;
     [ apply Spec.by_default
     | eapply Spec.by_target; eauto
     | apply Spec.by_default ]);
    unfold Spec.no_value; eauto. }
  destruct (header_get (resp_headers response) "HX-Partial-Name")
    as [[|c s]|] eqn:Hpartial;
  [ | eapply Spec.by_partial_name; eauto; by left | ];
  (destruct (htmx_target (htmx request)) as [[|c' s']|] eqn:Htarget;
   [ apply Spec.by_default
   | eapply Spec.by_target; eauto
   | apply Spec.by_default ]);
  unfold Spec.no_value; eauto.
Qed.

(** The rules pick one name: no two of them apply together. *)
Lemma partial_name_rule_functional (dflt : string) (request : HttpRequest)
    (response : HttpResponse) (p p' : string) :
  Spec.partial_name_rule dflt request response p ->
  Spec.partial_name_rule dflt request response p' ->
  p = p'.
Proof.
  intros Hp Hp'.
  destruct Hp; destruct Hp'; unfold Spec.no_value in *; intuition congruence.
Qed.

Lemma with_partial_rewritten (p : string) (names : list string) :
  Forall2 (Spec.rewritten p) names (Cbv.with_partial p <$> names).
Proof.
  induction names as [|name names IH]; cbn; constructor; [|exact IH].
  unfold Cbv.with_partial.
  destruct (contains "#" name) eqn:Hhash; cbn; by constructor.
Qed.

Lemma template_response_with_htmx (dflt : string) (request : HttpRequest)
    (response : HttpResponse) (names : list string) :
  cls response = TemplateResponse names ->
  htmx_bool (htmx request) = true ->
  ∃ p names',
    Spec.partial_name_rule dflt request response p
    ∧ Forall2 (Spec.rewritten p) names names'
    ∧ Cbv.template_response_with dflt request response
      = Ok (set_cls response (TemplateResponse names')).
Proof.
  intros Hcls Hhtmx. unfold Cbv.template_response_with.
  rewrite Hhtmx, Hcls.
  eexists _, _. split; [apply partial_name_of_rule|].
  split; [apply with_partial_rewritten|reflexivity].
Qed.

End PartialName.

(** C1 (amended). For an HTMX request and a template response, both
    [process_template_response] implementations rewrite every template name
    without a "#" to name, "#", partial name, and keep the names that have
    one. The partial name is the one the first applicable rule gives: the
    HX-Retarget header with its leading and trailing "#" stripped, else the
    HX-Partial-Name header, else the HTMX target, else the default, which is
    the DEFAULT_PARTIAL_NAME setting in django_htmx_cbv ("main" when the
    setting is absent) and always "main" in django_htmx_cbvs. For a request
    that is not an HTMX request the response is returned as it came. *)
Theorem process_template_response_partial
    (settings : Cbv.Settings) (request : HttpRequest)
    (response : HttpResponse) (names : list string) :
  cls response = TemplateResponse names ->
  (htmx_bool (htmx request) = true ->
     (∃ p names',
        Spec.partial_name_rule
          (default "main" (Cbv.DEFAULT_PARTIAL_NAME settings))
          request response p
        ∧ Forall2 (Spec.rewritten p) names names'
        ∧ Cbv.process_template_response settings request response
          = Ok (set_cls response (TemplateResponse names')))
     ∧ (∃ p names',
          Spec.partial_name_rule "main" request response p
          ∧ Forall2 (Spec.rewritten p) names names'
          ∧ Cbvs.process_template_response request response
            = Ok (set_cls response (TemplateResponse names'))))
  ∧ (htmx_bool (htmx request) = false ->
       Cbv.process_template_response settings request response = Ok response
       ∧ Cbvs.process_template_response request response = Ok response).
Proof.
  intros Hcls. split.
  - intros Hhtmx. split; by apply template_response_with_htmx.
  - intros Hhtmx.
    unfold Cbv.process_template_response, Cbvs.process_template_response,
      Cbv.template_response_with.
    by rewrite Hhtmx.
Qed.

(** With the target [text] and no header set by the view, the page template
    becomes its [text] partial, in both packages. *)
Lemma process_template_response_partial_witness :
  (∃ p names',
     Spec.partial_name_rule "content" Sample.hx_get_text Sample.page p
     ∧ Forall2 (Spec.rewritten p) ["page.html"] names'
     ∧ Cbv.process_template_response Sample.configured Sample.hx_get_text
         Sample.page
       = Ok (set_cls Sample.page (TemplateResponse names')))
  ∧ Cbvs.process_template_response Sample.hx_get_text Sample.page
    = Ok (set_cls Sample.page (TemplateResponse ["page.html#text"])).
Proof.
  destruct (process_template_response_partial Sample.configured
              Sample.hx_get_text Sample.page ["page.html"] eq_refl)
    as [Hhtmx _].
  destruct (Hhtmx eq_refl) as [Hcbv _].
  split; [exact Hcbv | reflexivity].
Defined.

(** C1 as stated fails where the project configures the default: with
    DEFAULT_PARTIAL_NAME set to [content], an HTMX request without a target
    gets the [content] partial of the page, and no choice of the rules with
    the default "main" gives that list of names. *)
Lemma process_template_response_configured_default :
  Cbv.process_template_response Sample.configured Sample.hx_get Sample.page
  = Ok (set_cls Sample.page (TemplateResponse ["page.html#content"]))
  ∧ ¬ ∃ p names',
        Spec.partial_name_rule "main" Sample.hx_get Sample.page p
        ∧ Forall2 (Spec.rewritten p) ["page.html"] names'
        ∧ Cbv.process_template_response Sample.configured Sample.hx_get
            Sample.page
          = Ok (set_cls Sample.page (TemplateResponse names')).
Proof.
  split; [reflexivity|].
  intros (p & names' & Hrule & Hnames & Hcall).
  assert (p = "main") as ->.
  { eapply partial_name_rule_functional; [exact Hrule|].
    apply Spec.by_default; by left. }
  inversion Hnames as [|? name' ? rest Hname Hrest]; subst.
  inversion Hrest; subst.
  inversion Hname; subst; [|discriminate].
  vm_compute in Hcall. discriminate Hcall.
Qed.

(** C6 (amended). For an HTMX request whose inner response has status 302
    and is a redirect response, one that has a [url], the middleware answers
    with an [HttpResponseClientRedirect] to that URL; for a request that is
    not an HTMX request, or an inner response with another status, it hands
    the inner response back. *)
Theorem HtmxPartialTemplateMiddleware_client_redirect
    (get_response : Handler) (request request' : HttpRequest)
    (response : HttpResponse) :
  get_response request = (request', response) ->
  (htmx_bool (htmx request') = true ->
   status_code response = 302 ->
   ∀ u, url response = Ok u ->
     Cbv.HtmxPartialTemplateMiddleware get_response request
     = Ok (request', HttpResponseClientRedirect u)
     ∧ url (HttpResponseClientRedirect u) = Ok u)
  ∧ (htmx_bool (htmx request') = false ∨ status_code response ≠ 302 ->
       Cbv.HtmxPartialTemplateMiddleware get_response request
       = Ok (request', response)).
Proof.
  intros Hinner. unfold Cbv.HtmxPartialTemplateMiddleware. rewrite Hinner.
  split.
  - intros -> -> u ->. split; [reflexivity|].
    unfold url, HttpResponseClientRedirect. cbn [cls resp_headers].
    by rewrite header_get_set_eq.
  - intros [-> | Hstatus]; [reflexivity|].
    rewrite (bool_decide_eq_false_2 _ Hstatus).
    by rewrite andb_false_r.
Qed.

(** A redirect to [/page/] that answers an HTMX request becomes a client
    redirect to [/page/]. *)
Lemma HtmxPartialTemplateMiddleware_client_redirect_witness :
  Cbv.HtmxPartialTemplateMiddleware
    (Sample.answer (HttpResponseRedirect "/page/")) Sample.hx_get
  = Ok (Sample.hx_get, HttpResponseClientRedirect "/page/")
  ∧ url (HttpResponseClientRedirect "/page/") = Ok "/page/".
Proof.
  destruct (HtmxPartialTemplateMiddleware_client_redirect
              (Sample.answer (HttpResponseRedirect "/page/"))
              Sample.hx_get _ _ eq_refl) as [Hredirect _].
  apply (Hredirect eq_refl eq_refl "/page/"). vm_compute. reflexivity.
Defined.

(** C6 as stated fails for a 302 response that is no redirect response: a
    plain [HttpResponse] with status 302 has no [url], and the middleware
    raises instead of answering. *)
Lemma HtmxPartialTemplateMiddleware_plain_302 :
  status_code (new_HttpResponse "" 302) = 302
  ∧ htmx_bool (htmx Sample.hx_get) = true
  ∧ Cbv.HtmxPartialTemplateMiddleware
      (Sample.answer (new_HttpResponse "" 302)) Sample.hx_get
    = Raise (AttributeError "url")
  ∧ ¬ ∃ u, Cbv.HtmxPartialTemplateMiddleware
             (Sample.answer (new_HttpResponse "" 302)) Sample.hx_get
           = Ok (Sample.hx_get, HttpResponseClientRedirect u).
Proof.
  do 3 (split; [reflexivity|]). intros [u Hu]. discriminate Hu.
Qed.

(** ** HttpVerbViewMiddleware *)

Section ProcessView.
Context `{Framework}.

(** Neither the assignment of [BODY] nor the method override touches what
    the other reads. *)
Lemma assign_BODY_frame (request : HttpRequest) :
  let request' := Cbv.assign_BODY request in
  method request' = method request ∧ GET request' = GET request
  ∧ POST request' = POST request ∧ htmx request' = htmx request
  ∧ QUERY request' = QUERY request.
Proof.
  unfold Cbv.assign_BODY. repeat case_bool_decide; done.
Qed.

Lemma override_method_frame (request : HttpRequest) :
  let request' := Cbv.override_method request in
  QUERY request' = QUERY request ∧ BODY request' = BODY request.
Proof.
  unfold Cbv.override_method.
  destruct (negb _); [|done].
  destruct (or_else _ _) as [m|]; [|done].
  by destruct (truthy m).
Qed.

Lemma process_view_BODY (request : HttpRequest) :
  BODY (Cbv.process_view request)
  = BODY (Cbv.assign_BODY (set_QUERY request (GET request))).
Proof. unfold Cbv.process_view. apply override_method_frame. Qed.

Lemma process_view_method (request : HttpRequest) :
  method (Cbv.process_view request)
  = method (Cbv.override_method request).
Proof.
  unfold Cbv.process_view.
  destruct (assign_BODY_frame (set_QUERY request (GET request)))
    as (Hm & Hget & Hpost & Hhtmx & _).
  unfold Cbv.override_method. rewrite Hhtmx, Hpost, Hget. cbn [set_QUERY htmx POST GET].
  destruct (negb _); [|exact Hm].
  destruct (or_else _ _) as [m|]; [|exact Hm].
  destruct (truthy m); [reflexivity|exact Hm].
Qed.

(** What [process_view] of django_htmx_cbv assigns, verb by verb *)
Lemma process_view_assigns (request : HttpRequest) :
  QUERY (Cbv.process_view request) = Some (GET request)
  ∧ (method request ∈ ["GET"; "DELETE"] ->
       BODY (Cbv.process_view request) = Some ∅)
  ∧ (method request = "POST" ->
       BODY (Cbv.process_view request) = Some (POST request))
  ∧ (method request ∈ ["PUT"; "PATCH"] ->
     content_type request = "application/x-www-form-urlencoded" ->
       BODY (Cbv.process_view request) = Some (parse_qs (body request)))
  ∧ (method request ∈ ["PUT"; "PATCH"] ->
     content_type request ≠ "application/x-www-form-urlencoded" ->
       BODY (Cbv.process_view request) = BODY request).
Proof.
  split.
  { unfold Cbv.process_view.
    destruct (override_method_frame
                (Cbv.assign_BODY (set_QUERY request (GET request))))
      as [-> _].
    by destruct (assign_BODY_frame (set_QUERY request (GET request)))
      as (_ & _ & _ & _ & ->). }
  rewrite process_view_BODY. unfold Cbv.assign_BODY.
  cbn [set_QUERY method POST content_type body].
  repeat apply conj; intros Hverb; try intros Hctype;
    repeat case_bool_decide; try done; verb_cases.
Qed.

End ProcessView.

(** C2 (amended). [process_view] of django_htmx_cbv sets [request.QUERY]
    to a copy of the URL parameters. It sets [request.BODY] to an empty
    QueryDict for GET and DELETE, to a copy of [request.POST] for POST, and
    to the QueryDict parsed from the raw body for a PUT or PATCH whose
    content type is application/x-www-form-urlencoded. So every request
    with one of the five verbs that is a GET, a DELETE, a POST or
    form-encoded reaches the view with a [request.BODY]. *)
Theorem process_view_QUERY_BODY `{Framework} (request : HttpRequest) :
  QUERY (Cbv.process_view request) = Some (GET request)
  ∧ (method request ∈ ["GET"; "DELETE"] ->
       BODY (Cbv.process_view request) = Some ∅)
  ∧ (method request = "POST" ->
       BODY (Cbv.process_view request) = Some (POST request))
  ∧ (method request ∈ ["PUT"; "PATCH"] ->
     content_type request = "application/x-www-form-urlencoded" ->
       BODY (Cbv.process_view request) = Some (parse_qs (body request)))
  ∧ (method request ∈ Spec.verbs ->
     method request ∈ ["GET"; "DELETE"; "POST"]
     ∨ content_type request = "application/x-www-form-urlencoded" ->
       is_Some (BODY (Cbv.process_view request))).
Proof.
  destruct (process_view_assigns request)
    as (Hquery & Hget & Hpost & Hform & _).
  do 4 (split; [assumption|]).
  unfold Spec.verbs. intros Hverb Hassigned.
  destruct (decide (method request ∈ ["GET"; "DELETE"])) as [Hg|Hg];
    [rewrite (Hget Hg); eauto|].
  destruct (decide (method request = "POST")) as [Hp|Hp];
    [rewrite (Hpost Hp); eauto|].
  assert (method request ∈ ["PUT"; "PATCH"]) as Hput by verb_cases.
  destruct Hassigned as [Hin | Hctype]; [verb_cases|].
  rewrite (Hform Hput Hctype). eauto.
Qed.

(** The test suite's PUT: the URL parameters land in [QUERY], the form body
    in [BODY]. *)
Lemma process_view_QUERY_BODY_witness :
  QUERY (Cbv.process_view (H := Sample.framework) Sample.put_form)
  = Some {[ "foo" := ["bar"] ]}
  ∧ BODY (Cbv.process_view (H := Sample.framework) Sample.put_form)
    = Some {[ "int" := ["1"]; "str" := ["1"] ]}.
Proof.
  destruct (process_view_QUERY_BODY (H := Sample.framework) Sample.put_form)
    as (Hquery & _ & _ & Hput & _).
  split.
  - rewrite Hquery. vm_compute. reflexivity.
  - rewrite Hput; [vm_compute; reflexivity | verb_cases | reflexivity].
Defined.

(** C2 as stated fails for a PUT that is not form-encoded: a PUT with a
    JSON body leaves the middleware with [request.BODY] unassigned, not with
    the QueryDict parsed from its body. *)
Lemma process_view_put_json_no_BODY :
  method Sample.put_json = "PUT"
  ∧ BODY Sample.put_json = None
  ∧ BODY (Cbv.process_view (H := Sample.framework) Sample.put_json) = None
  ∧ BODY (Cbv.process_view (H := Sample.framework) Sample.put_json)
    ≠ Some (parse_qs (Framework := Sample.framework) (body Sample.put_json)).
Proof.
  assert (BODY (Cbv.process_view (H := Sample.framework) Sample.put_json)
          = None) as Hnone by (vm_compute; reflexivity).
  repeat split; try reflexivity; try exact Hnone.
  rewrite Hnone. discriminate.
Qed.

(** C4. For a request that is not an HTMX request, a non-empty [_method]
    among the POST parameters, or failing that among the GET parameters,
    replaces [request.method], in upper case. For an HTMX request, and for a
    request without a [_method] parameter, the method stays. The value is
    taken to be ASCII text, where [upper] is the interpreter's
    [str.upper]. *)
Theorem process_view_method_override `{Framework} (request : HttpRequest) :
  (htmx_bool (htmx request) = false ->
   ∀ m, qd_get (POST request) "_method" = Some m -> m ≠ "" ->
        Mixins.is_ascii m = true ->
        method (Cbv.process_view request) = upper m)
  ∧ (htmx_bool (htmx request) = false ->
     Spec.no_value (qd_get (POST request) "_method") ->
     ∀ m, qd_get (GET request) "_method" = Some m -> m ≠ "" ->
          Mixins.is_ascii m = true ->
          method (Cbv.process_view request) = upper m)
  ∧ (htmx_bool (htmx request) = true ->
       method (Cbv.process_view request) = method request)
  ∧ (POST request !! "_method" = None ->
     GET request !! "_method" = None ->
       method (Cbv.process_view request) = method request).
Proof.
  rewrite process_view_method. unfold Cbv.override_method.
  repeat split.
  - intros -> m -> Hm _. cbn. destruct m; [done|reflexivity].
  - intros -> Hpost m Hget Hm _. cbn.
    apply no_value_falsy in Hpost. unfold or_else. rewrite Hpost, Hget.
    destruct m; [done|reflexivity].
  - by intros ->.
  - intros Hpost Hget. unfold qd_get. rewrite Hpost, Hget. cbn.
    by destruct (negb _).
Qed.

(** The test suite's override: a form POST with [_method=patch] reaches the
    view as a PATCH. *)
Lemma process_view_method_override_witness :
  method (Cbv.process_view (H := Sample.framework) Sample.post_override)
  = "PATCH".
Proof.
  destruct (process_view_method_override (H := Sample.framework)
              Sample.post_override) as [Hpost _].
  apply (Hpost eq_refl "patch");
    [vm_compute; reflexivity | discriminate | reflexivity].
Defined.

Lemma cbvs_process_view_BODY `{Framework} (request : HttpRequest) :
  BODY (Cbvs.process_view request)
  = Some (if qd_truthy (POST request) then POST request
          else parse_qs (body request)).
Proof.
  unfold Cbvs.process_view.
  destruct (override_method_frame
              (Cbvs.assign_BODY (set_QUERY request (GET request))))
    as [_ ->].
  reflexivity.
Qed.

Lemma cbvs_process_view_QUERY `{Framework} (request : HttpRequest) :
  QUERY (Cbvs.process_view request) = Some (GET request).
Proof.
  unfold Cbvs.process_view.
  destruct (override_method_frame
              (Cbvs.assign_BODY (set_QUERY request (GET request))))
    as [-> _].
  reflexivity.
Qed.

(** C9 (amended). The two [process_view] implementations assign the same
    [request.QUERY] for every request. They assign the same [request.BODY]
    for a GET or DELETE exactly when [request.POST] is empty and the raw
    body parses to an empty QueryDict, for a POST exactly when
    [request.POST] is not empty or the raw body parses to an empty
    QueryDict, and for a form-encoded PUT or PATCH whose [request.POST] is
    empty. *)
Theorem process_view_implementations `{Framework} (request : HttpRequest) :
  QUERY (Cbv.process_view request) = QUERY (Cbvs.process_view request)
  ∧ (method request ∈ ["GET"; "DELETE"] ->
       (BODY (Cbv.process_view request) = BODY (Cbvs.process_view request)
        <-> POST request = ∅ ∧ parse_qs (body request) = ∅))
  ∧ (method request = "POST" ->
       (BODY (Cbv.process_view request) = BODY (Cbvs.process_view request)
        <-> POST request ≠ ∅ ∨ parse_qs (body request) = ∅))
  ∧ (method request ∈ ["PUT"; "PATCH"] ->
     content_type request = "application/x-www-form-urlencoded" ->
     POST request = ∅ ->
       BODY (Cbv.process_view request) = BODY (Cbvs.process_view request)).
Proof.
  destruct (process_view_assigns request)
    as (Hquery & Hget & Hpost & Hput & _).
  rewrite cbvs_process_view_QUERY, cbvs_process_view_BODY.
  split; [exact Hquery|]. unfold qd_truthy.
  split; [|split].
  - intros Hverb. rewrite (Hget Hverb). split.
    + intros [= Hbody]. case_bool_decide; split; congruence.
    + intros [Hempty Hparse]. case_bool_decide; congruence.
  - intros Hverb. rewrite (Hpost Hverb). split.
    + intros [= Hbody]. case_bool_decide; [by left | right; congruence].
    + intros [Hne | Hparse]; case_bool_decide; congruence.
  - intros Hverb Hctype Hempty. rewrite (Hput Hverb Hctype).
    case_bool_decide; congruence.
Qed.

(** The test suite's PUT gets the same [QUERY] and the same [BODY] from
    both implementations. *)
Lemma process_view_implementations_witness :
  QUERY (Cbv.process_view (H := Sample.framework) Sample.put_form)
  = QUERY (Cbvs.process_view (H := Sample.framework) Sample.put_form)
  ∧ BODY (Cbv.process_view (H := Sample.framework) Sample.put_form)
    = BODY (Cbvs.process_view (H := Sample.framework) Sample.put_form).
Proof.
  destruct (process_view_implementations (H := Sample.framework)
              Sample.put_form) as (Hquery & _ & _ & Hput).
  split; [exact Hquery|].
  apply Hput; [verb_cases | reflexivity | reflexivity].
Defined.

(** C9 as stated fails for a DELETE that carries a body: django_htmx_cbv
    assigns the empty QueryDict, django_htmx_cbvs the parsed body. *)
Lemma process_view_delete_with_body :
  BODY (Cbv.process_view (H := Sample.framework) Sample.delete_form)
  = Some ∅
  ∧ BODY (Cbvs.process_view (H := Sample.framework) Sample.delete_form)
    = Some {[ "x" := ["1"] ]}
  ∧ BODY (Cbv.process_view (H := Sample.framework) Sample.delete_form)
    ≠ BODY (Cbvs.process_view (H := Sample.framework) Sample.delete_form).
Proof.
  assert (BODY (Cbv.process_view (H := Sample.framework) Sample.delete_form)
          = Some ∅) as Hcbv by (vm_compute; reflexivity).
  assert (BODY (Cbvs.process_view (H := Sample.framework) Sample.delete_form)
          = Some {[ "x" := ["1"] ]}) as Hcbvs by (vm_compute; reflexivity).
  split; [exact Hcbv|]. split; [exact Hcbvs|].
  rewrite Hcbv, Hcbvs. intros Hmaps.
  apply (f_equal (λ o : option QueryDict, q ← o; q !! "x")) in Hmaps.
  vm_compute in Hmaps. discriminate Hmaps.
Qed.

(** ** HtmxMessageMiddleware *)
Section Guards.

Lemma redirection_range (status : Z) :
  (300 <=? status) && (status <? 400) = true <-> 300 <= status < 400.
Proof. rewrite andb_true_iff, Z.leb_le, Z.ltb_lt. reflexivity. Qed.

Lemma cbv_guards_skips (request : HttpRequest) (response : HttpResponse) :
  Cbv.guards request response ≠ Cbv.AtMessages <-> Spec.skips request response.
Proof.
  unfold Cbv.guards, Spec.skips.
  destruct (header_in "HX-Redirect" _) eqn:Hredirect;
    [split; [by left | done]|].
  destruct (header_in "HX-Request" _) eqn:Hrequest; cbn [negb];
    [|split; [right; by left | done]].
  destruct ((300 <=? _) && _) eqn:Hrange.
  - apply redirection_range in Hrange. split; [right; by right | done].
  - split; [done|]. intros [Hr | [Hr | Hr]]; try discriminate Hr.
    apply redirection_range in Hr. congruence.
Qed.

Lemma cbvs_guards_skips (request : HttpRequest) (response : HttpResponse) :
  Cbvs.guards request response ≠ Cbv.AtMessages <-> Spec.skips request response.
Proof.
  unfold Cbvs.guards, Spec.skips.
  destruct (header_in "HX-Request" _) eqn:Hrequest; cbn [negb];
    [|split; [right; by left | done]].
  destruct ((300 <=? _) && _) eqn:Hrange.
  - apply redirection_range in Hrange. split; [right; by right | done].
  - destruct (header_in "HX-Redirect" _) eqn:Hredirect;
      [split; [by left | done]|].
    split; [done|]. intros [Hr | [Hr | Hr]]; try discriminate Hr.
    apply redirection_range in Hr. congruence.
Qed.

End Guards.

(** C8. The message middleware of django_htmx_cbv leaves at one of its
    three early returns exactly when the one of django_htmx_cbvs does: both
    hand the inner response back as it is when the response has an
    HX-Redirect header, or the request has no HX-Request header, or the
    status is in [300, 400), and both go on to the message step
    otherwise. *)
Theorem HtmxMessageMiddleware_guards_agree `{Framework}
    (settings : Cbv.Settings) (get_response : Handler)
    (request request' : HttpRequest) (response : HttpResponse) :
  get_response request = (request', response) ->
  (Cbv.guards request' response ≠ Cbv.AtMessages
   <-> Cbvs.guards request' response ≠ Cbv.AtMessages)
  ∧ (Cbv.guards request' response = Cbv.AtMessages
     <-> Cbvs.guards request' response = Cbv.AtMessages)
  ∧ (Cbv.guards request' response ≠ Cbv.AtMessages
     <-> Spec.skips request' response)
  ∧ (Spec.skips request' response ->
       Cbv.HtmxMessageMiddleware settings get_response request
       = (request', response)
       ∧ Cbvs.HtmxMessageMiddleware get_response request
         = (request', response))
  ∧ (¬ Spec.skips request' response ->
       Cbv.HtmxMessageMiddleware settings get_response request
       = (request',
          Cbv.add_messages (Cbv.messages_template settings) request' response)
       ∧ Cbvs.HtmxMessageMiddleware get_response request
         = (request', Cbv.add_messages "messages.html" request' response)).
Proof.
  intros Hinner.
  pose proof (cbv_guards_skips request' response) as Hcbv.
  pose proof (cbvs_guards_skips request' response) as Hcbvs.
  unfold Cbv.HtmxMessageMiddleware, Cbvs.HtmxMessageMiddleware.
  rewrite Hinner.
  split; [by rewrite Hcbv, Hcbvs|].
  split.
  { destruct (Cbv.guards request' response),
      (Cbvs.guards request' response);
      split; intros Hexit; try discriminate Hexit; try reflexivity;
      exfalso; intuition congruence. }
  split; [exact Hcbv|]. split.
  - intros Hskip. apply Hcbv in Hskip as Hone. apply Hcbvs in Hskip as Htwo.
    by destruct (Cbv.guards request' response),
      (Cbvs.guards request' response).
  - intros Hgo.
    assert (Cbv.guards request' response = Cbv.AtMessages) as ->
      by (destruct (Cbv.guards request' response); try reflexivity;
          exfalso; apply Hgo, Hcbv; discriminate).
    assert (Cbvs.guards request' response = Cbv.AtMessages) as ->
      by (destruct (Cbvs.guards request' response); try reflexivity;
          exfalso; apply Hgo, Hcbvs; discriminate).
    done.
Qed.

(** The order shows in where the two leave, not in whether they do: for a
    request without HX-Request that is answered with a client redirect,
    django_htmx_cbv leaves at its test of the response and django_htmx_cbvs
    at its test of the request, and both hand the redirect back. *)
Lemma HtmxMessageMiddleware_guards_agree_witness :
  Cbv.guards (Sample.request "GET" "" "" "" ∅ Sample.no_htmx ∅ ["Saved."])
    (HttpResponseClientRedirect "/page/") = Cbv.AtHxRedirect
  ∧ Cbvs.guards (Sample.request "GET" "" "" "" ∅ Sample.no_htmx ∅ ["Saved."])
      (HttpResponseClientRedirect "/page/") = Cbv.AtNotHtmx
  ∧ Cbv.HtmxMessageMiddleware (H := Sample.framework) Sample.defaults
      (Sample.answer (HttpResponseClientRedirect "/page/"))
      (Sample.request "GET" "" "" "" ∅ Sample.no_htmx ∅ ["Saved."])
    = (Sample.request "GET" "" "" "" ∅ Sample.no_htmx ∅ ["Saved."],
       HttpResponseClientRedirect "/page/")
  ∧ Cbvs.HtmxMessageMiddleware (H := Sample.framework)
      (Sample.answer (HttpResponseClientRedirect "/page/"))
      (Sample.request "GET" "" "" "" ∅ Sample.no_htmx ∅ ["Saved."])
    = (Sample.request "GET" "" "" "" ∅ Sample.no_htmx ∅ ["Saved."],
       HttpResponseClientRedirect "/page/").
Proof.
  split; [vm_compute; reflexivity|]. split; [vm_compute; reflexivity|].
  destruct (HtmxMessageMiddleware_guards_agree (H := Sample.framework)
              Sample.defaults
              (Sample.answer (HttpResponseClientRedirect "/page/"))
              (Sample.request "GET" "" "" "" ∅ Sample.no_htmx ∅ ["Saved."])
              _ _ eq_refl) as (_ & _ & _ & Hskip & _).
  apply Hskip. left. vm_compute. reflexivity.
Defined.

(** C3. For a request with the HX-Request header whose inner response has
    a status outside [300, 400) and no HX-Redirect header, pending messages
    are rendered with the messages template and the HTML is appended to the
    body of the response, status and headers kept; a 204 response is
    replaced by a new 200 response whose body is that HTML. Without
    HX-Request, with a status in [300, 400) or with HX-Redirect the inner
    response is handed back as it is. *)
Theorem HtmxMessageMiddleware_injects_messages `{Framework}
    (settings : Cbv.Settings) (get_response : Handler)
    (request request' : HttpRequest) (response : HttpResponse) :
  get_response request = (request', response) ->
  (header_in "HX-Request" (headers request') = true ->
   ¬ (300 <= status_code response < 400) ->
   header_in "HX-Redirect" (resp_headers response) = false ->
   _messages request' ≠ [] ->
   ∃ response',
     Cbv.HtmxMessageMiddleware settings get_response request
     = (request', response')
     ∧ let html :=
         render_to_string (Cbv.messages_template settings)
           (_messages request') request' in
       (status_code response = 204 ->
          response' = new_HttpResponse html 200
          ∧ status_code response' = 200 ∧ content response' = html)
       ∧ (status_code response ≠ 204 ->
            content response' = content response +:+ html
            ∧ status_code response' = status_code response
            ∧ resp_headers response' = resp_headers response
            ∧ cls response' = cls response))
  ∧ (header_in "HX-Request" (headers request') = false
     ∨ 300 <= status_code response < 400
     ∨ header_in "HX-Redirect" (resp_headers response) = true ->
       Cbv.HtmxMessageMiddleware settings get_response request
       = (request', response)).
Proof.
  intros Hinner. unfold Cbv.HtmxMessageMiddleware. rewrite Hinner. split.
  - intros Hrequest Hstatus Hredirect Hmessages.
    assert (Cbv.guards request' response = Cbv.AtMessages) as ->.
    { destruct (Cbv.guards request' response) eqn:Hexit; try reflexivity;
        exfalso;
        (assert (Cbv.guards request' response ≠ Cbv.AtMessages) as Hskip
           by congruence);
        apply cbv_guards_skips in Hskip;
        destruct Hskip as [Hs | [Hs | Hs]]; congruence. }
    eexists. split; [reflexivity|].
    unfold Cbv.add_messages.
    destruct (_messages request') as [|message messages] eqn:Hstored;
      [done|].
    cbn zeta. split.
    + intros ->. by rewrite bool_decide_eq_true_2.
    + intros Hcontent. by rewrite bool_decide_eq_false_2.
  - intros Hskip.
    assert (Cbv.guards request' response ≠ Cbv.AtMessages) as Hexit.
    { apply cbv_guards_skips. unfold Spec.skips. tauto. }
    by destruct (Cbv.guards request' response).
Qed.

(** The test suite's 204: an HTMX request with one pending message and a
    response without content gets a 200 response that holds the message. *)
Lemma HtmxMessageMiddleware_injects_messages_witness :
  ∃ response',
    Cbv.HtmxMessageMiddleware (H := Sample.framework) Sample.defaults
      (Sample.answer Sample.no_content) Sample.hx_get_message
    = (Sample.hx_get_message, response')
    ∧ status_code response' = 200
    ∧ content response'
      = "<output id='messages' hx-swap-oob='true'><li>Message successful!</li></output>".
Proof.
  destruct (HtmxMessageMiddleware_injects_messages (H := Sample.framework)
              Sample.defaults (Sample.answer Sample.no_content)
              Sample.hx_get_message _ _ eq_refl) as [Hinject _].
  destruct Hinject as (response' & Hcall & Hno_content & _).
  - vm_compute. reflexivity.
  - cbn. lia.
  - vm_compute. reflexivity.
  - discriminate.
  - destruct (Hno_content eq_refl) as (_ & Hstatus & Hbody).
    exists response'. split; [exact Hcall|]. split; [exact Hstatus|].
    rewrite Hbody. vm_compute. reflexivity.
Defined.

(** ** Forms and views *)
Section Options.

Lemma odict_get_set {A} (d : odict A) (key key' : string) (v : A) :
  is_Some (odict_get d key) -> is_Some (odict_get (odict_set d key' v) key).
Proof.
  induction d as [|[k w] d IH]; cbn; [by intros [? [=]]|].
  intros Hkey. repeat (case_bool_decide; cbn); subst; eauto; try done.
  all: cbn in *; repeat case_bool_decide; eauto; congruence.
Qed.

Lemma odict_get_set_eq {A} (d : odict A) (key : string) (v : A) :
  is_Some (odict_get (odict_set d key v) key).
Proof.
  induction d as [|[k w] d IH]; cbn;
    repeat (case_bool_decide; cbn); eauto; congruence.
Qed.

(** Options that a form took name fields of the form. *)
Lemma apply_options_fields (options : odict Choices) :
  ∀ (fields fields' : odict Field),
    Forms.apply_options fields options = Ok fields' ->
    (∀ key, is_Some (odict_get fields key) ->
            is_Some (odict_get fields' key))
    ∧ Forall (λ name, is_Some (odict_get fields' name)) options.*1.
Proof.
  induction options as [|[field_name choices] options IH];
    intros fields fields'; cbn.
  - intros [= ->]. split; [done | constructor].
  - destruct (odict_get fields field_name) as [form_field|] eqn:Hfield;
      [|discriminate].
    destruct (Forms.set_choices field_name form_field choices)
      as [form_field'|e]; cbn; [|discriminate].
    intros Happly. destruct (IH _ _ Happly) as [Hkeep Hall].
    split.
    + intros key Hkey. apply Hkeep. by apply odict_get_set.
    + constructor; [|exact Hall]. apply Hkeep, odict_get_set_eq.
Qed.

Lemma traverse_bound_field `{Framework} (form : Form) (names : list string) :
  Forall (λ name, is_Some (odict_get (fields form) name)) names ->
  traverse (Views.bound_field form) names
  = Ok (render_bound_field form <$> names).
Proof.
  induction 1 as [|name names [field Hfield] _ IH]; cbn; [reflexivity|].
  unfold Views.bound_field at 1. rewrite Hfield. cbn. by rewrite IH.
Qed.

(** The element ids that [get] answers to: the id of every base field that
    has choices, and [id_choices]. *)
Lemma form_field_ids_spec (view : Views.FormViewClass) (id : string) :
  id ∈ Views.form_field_ids view
  <-> id = "id_choices"
      ∨ ∃ field_name field,
          (field_name, field) ∈ Views.base_fields view
          ∧ has_choices field = true
          ∧ id = "id_" +:+ field_name.
Proof.
  unfold Views.form_field_ids.
  rewrite elem_of_app, list_elem_of_fmap, list_elem_of_singleton.
  split.
  - intros [([field_name field] & -> & Hin) | ->]; [right | by left].
    apply list_elem_of_filter in Hin as [Hchoices Hin]. eauto.
  - intros [-> | (field_name & field & Hin & Hchoices & ->)];
      [by right | left].
    exists (field_name, field). split; [reflexivity|].
    by apply list_elem_of_filter.
Qed.

End Options.

(** C10 (amended). [HtmxChainedFormView.get] answers with an empty 204
    response whenever the HTMX target is not one of the form's choice-field
    ids (the id of each base field with choices, and [id_choices]), so also
    for every request without a target, HTMX or not. For an HTMX request
    whose target is one of those ids it answers with a 200 response whose
    body is the rendered option fields, one after the other, when
    [get_options] is overridden and the form takes the options; with the
    base [get_options] it raises ImproperlyConfigured. *)
Theorem HtmxChainedFormView_get_responses `{Framework}
    (view : Views.FormViewClass) (request : HttpRequest) :
  (∀ id, id ∈ Views.form_field_ids view
         <-> id = "id_choices"
             ∨ ∃ field_name field,
                 (field_name, field) ∈ Views.base_fields view
                 ∧ has_choices field = true
                 ∧ id = "id_" +:+ field_name)
  ∧ (Views.target_in request (Views.form_field_ids view) = false ->
     Views.HtmxChainedFormView_get view request
     = Ok (new_HttpResponse "" 204))
  ∧ (htmx_target (htmx request) = None ->
       Views.HtmxChainedFormView_get view request
       = Ok (new_HttpResponse "" 204))
  ∧ (∀ kwargs,
       htmx_bool (htmx request) = true ->
       Views.target_in request (Views.form_field_ids view) = true ->
       Views.HyperFormMixin_get_form_kwargs view request = Ok kwargs ->
       (∀ get_options form,
          Views.get_options_override view = Some get_options ->
          Forms.HtmxChainedForm (Views.base_fields view)
            (Views.with_options kwargs (get_options request)) = Ok form ->
          Views.HtmxChainedFormView_get view request
          = Ok (new_HttpResponse
                  (String.concat ""
                     (render_bound_field form <$> (get_options request).*1))
                  200))
       ∧ (Views.get_options_override view = None ->
          ∃ message,
            Views.HtmxChainedFormView_get view request
            = Raise (ImproperlyConfigured message))).
Proof.
  split; [apply form_field_ids_spec|].
  unfold Views.HtmxChainedFormView_get. split; [by intros ->|].
  split; [unfold Views.target_in; by intros ->|].
  intros kwargs Hhtmx -> Hkwargs.
  unfold Views.HtmxChainedFormView_get_form_kwargs, Views.get_options.
  rewrite Hkwargs, Hhtmx. cbn. split.
  - intros get_options form -> Hform. cbn. rewrite Hform. cbn.
    assert (Forall (λ name, is_Some (odict_get (fields form) name))
              (get_options request).*1) as Hnames.
    { unfold Forms.HtmxChainedForm in Hform. cbn in Hform.
      destruct (Forms.apply_options _ _) as [fields'|e] eqn:Happly;
        [|discriminate].
      cbn in Hform. injection Hform as <-. cbn.
      by apply apply_options_fields in Happly as [_ Hall]. }
    by rewrite (traverse_bound_field form _ Hnames).
  - intros ->. eexists. reflexivity.
Qed.

(** The city select of the chained form: the answer is the rendered [city]
    field. *)
Lemma HtmxChainedFormView_get_responses_witness :
  Views.HtmxChainedFormView_get (H := Sample.framework) Sample.city_view
    Sample.hx_city
  = Ok (new_HttpResponse "<select id='id_city'></select>" 200).
Proof.
  destruct (HtmxChainedFormView_get_responses (H := Sample.framework)
              Sample.city_view Sample.hx_city) as (_ & _ & _ & Hoptions).
  edestruct Hoptions as [Hoverridden _];
    [reflexivity | reflexivity | vm_compute; reflexivity |].
  eapply eq_trans;
    [ eapply Hoverridden; [reflexivity | vm_compute; reflexivity]
    | vm_compute; reflexivity ].
Defined.

(** C10 as stated fails for a view that leaves [get_options] to the base
    class: the request for the city select gets no response, the view
    raises ImproperlyConfigured. *)
Lemma HtmxChainedFormView_get_base_options :
  method Sample.hx_city = "GET"
  ∧ (∃ message,
       Views.HtmxChainedFormView_get (H := Sample.framework) Sample.bare_view
         Sample.hx_city
       = Raise (ImproperlyConfigured message))
  ∧ ¬ ∃ response,
        Views.HtmxChainedFormView_get (H := Sample.framework)
          Sample.bare_view Sample.hx_city
        = Ok response.
Proof.
  split; [vm_compute; reflexivity|].
  split; [eexists; vm_compute; reflexivity|].
  intros [response Hresponse]. vm_compute in Hresponse.
  discriminate Hresponse.
Qed.

(** A target that arrives without the HX-Request marker: the options are
    not computed, and reading them raises. *)
Example HtmxChainedFormView_get_target_without_htmx :
  Views.HtmxChainedFormView_get (H := Sample.framework) Sample.city_view
    (Cbv.process_view (H := Sample.framework)
       (Sample.request "GET" "" "" "" ∅
          {| htmx_bool := false; htmx_target := Some "id_city";
             htmx_trigger := None |} ∅ []))
  = Raise (KeyError "options").
Proof. vm_compute. reflexivity. Qed.

(** C5 (amended). A request that reaches the base implementation of
    [ProcessHyperFormView.delete], of
    [SingleObjectPermissionMixin.has_permission] (directly or from [setup],
    once the object is found) or of [HtmxChainedFormView.get_options], the
    subclass having left the method out, raises ImproperlyConfigured and
    produces no response. The same exception types are raised elsewhere
    too: PermissionDenied by [setup] when the view's own [has_permission]
    refuses the object; BadRequest by [ModelFormView.delete] when the one
    URL parameter that names a field of the object names a relation and
    asks, with a non-empty value, for another primary key than the related
    object has; and ImproperlyConfigured by [HtmxFormMixin.form_invalid]
    for an HTMX request without a trigger. *)
Theorem base_implementations_raise :
  (∀ (view : Views.FormViewClass) (request : HttpRequest),
     Views.delete_override view = None ->
     ∃ message,
       Views.delete view request = Raise (ImproperlyConfigured message))
  ∧ (∀ (view : Views.ModelViewClass) (request : HttpRequest)
       (obj : Views.Instance),
       Views.has_permission_override view = None ->
       ∃ message,
         Views.has_permission view request obj
         = Raise (ImproperlyConfigured message)
         ∧ (Views.get_object view request = Ok obj ->
            Views.setup view request = Raise (ImproperlyConfigured message)))
  ∧ (∀ (view : Views.FormViewClass) (request : HttpRequest),
       Views.get_options_override view = None ->
       ∃ message,
         Views.get_options view request
         = Raise (ImproperlyConfigured message))
  ∧ (∀ (view : Views.ModelViewClass) (request : HttpRequest)
       (obj : Views.Instance) (allowed : HttpRequest -> Views.Instance -> bool),
       Views.get_object view request = Ok obj ->
       Views.has_permission_override view = Some allowed ->
       allowed request obj = false ->
       Views.setup view request = Raise PermissionDenied)
  ∧ (∀ (view : Views.ModelViewClass) (set_order : list string -> list string)
       (request : HttpRequest) (obj : Views.Instance) (query : QueryDict)
       (name requested : string) (pk : Views.Pk),
       (∀ names, set_order names ≡ₚ names) ->
       QUERY request = Some query ->
       Views.related_names query obj = [name] ->
       odict_get (Views.field_values obj) name
       = Some (Views.Related (Some pk)) ->
       qd_get query name = Some requested ->
       requested ≠ "" ->
       Views.pk_eq pk requested = false ->
       Views.ModelFormView_delete view set_order obj request
       = Raise BadRequest)
  ∧ (∀ (view : Views.FormViewClass) (request : HttpRequest),
       htmx_bool (htmx request) = true ->
       htmx_trigger (htmx request) = None ->
       ∃ message,
         Views.form_invalid view request
         = Raise (ImproperlyConfigured message)).
Proof.
  repeat apply conj.
  - intros view request Hbase. unfold Views.delete. rewrite Hbase.
    eexists. reflexivity.
  - intros view request obj Hbase. eexists.
    unfold Views.setup, Views.has_permission. rewrite Hbase.
    split; [reflexivity|]. by intros ->.
  - intros view request Hbase. unfold Views.get_options. rewrite Hbase.
    eexists. reflexivity.
  - intros view request obj allowed Hobj Hown Hrefused.
    unfold Views.setup, Views.has_permission.
    rewrite Hobj, Hown. cbn. by rewrite Hrefused.
  - intros view set_order request obj query name requested pk
      Horder Hquery Hnames Hfield Hrequested Hne Hpk.
    unfold Views.ModelFormView_delete, Views.attr_QUERY.
    rewrite Hquery. cbn. rewrite Hnames.
    rewrite (proj1 (Permutation_singleton_r _ _) (Horder [name])). cbn.
    unfold Views.delete_related. rewrite Hfield, Hrequested.
    destruct requested; [done|]. by rewrite Hpk.
  - intros view request Hhtmx Htrigger. unfold Views.form_invalid.
    rewrite Hhtmx, Htrigger. eexists. reflexivity.
Qed.

(** The view that leaves everything to the base classes raises on DELETE
    and on the options; the DELETE that asks for author 8 of a book whose
    author is 7 is a bad request, in whatever order a set is visited. *)
Lemma base_implementations_raise_witness :
  (∃ message,
     Views.delete Sample.bare_view Sample.delete_author
     = Raise (ImproperlyConfigured message))
  ∧ (∃ message,
       Views.get_options Sample.bare_view Sample.hx_city
       = Raise (ImproperlyConfigured message))
  ∧ Views.ModelFormView_delete Sample.refusing_view reverse Sample.book
      Sample.delete_author
    = Raise BadRequest.
Proof.
  destruct base_implementations_raise
    as (Hdelete & _ & Hoptions & _ & Hbad & _).
  split; [exact (Hdelete Sample.bare_view Sample.delete_author eq_refl)|].
  split; [exact (Hoptions Sample.bare_view Sample.hx_city eq_refl)|].
  apply (Hbad Sample.refusing_view reverse Sample.delete_author Sample.book
           (Sample.parse "author=8") "author" "8" (Views.StrPk "7"));
    try (vm_compute; reflexivity).
  - intros names. apply reverse_Permutation.
  - discriminate.
Defined.

(** C5 as stated fails in its last part: a view that does override
    [has_permission], and refuses, raises PermissionDenied, one of the
    three exception types, with no override left out. *)
Lemma setup_refused_with_override :
  Views.setup Sample.refusing_view Sample.delete_author
  = Raise PermissionDenied
  ∧ Spec.framework_exception PermissionDenied
  ∧ Views.has_permission_override Sample.refusing_view ≠ None
  ∧ ¬ (∀ (view : Views.ModelViewClass) (request : HttpRequest) (e : exn),
         Views.setup view request = Raise e ->
         Spec.framework_exception e ->
         Views.has_permission_override view = None).
Proof.
  split; [vm_compute; reflexivity|]. split; [exact I|].
  split; [discriminate|].
  intros Honly.
  specialize (Honly Sample.refusing_view Sample.delete_author
                PermissionDenied).
  discriminate Honly; [vm_compute; reflexivity | exact I].
Qed.

(** * Further properties of the code *)

(** ** Template names after [process_template_response] *)
Section TemplateNames.

Lemma contains_after_hash (name partial_name : string) :
  contains "#" (name +:+ "#" +:+ partial_name) = true.
Proof.
  induction name as [|c name IH]; [reflexivity|].
  change (contains "#" (String c (name +:+ "#" +:+ partial_name)) = true).
  cbn [contains]. destruct (Ascii.eqb c "#"); [reflexivity | exact IH].
Qed.

Lemma with_partial_has_hash (partial_name name : string) :
  contains "#" (Cbv.with_partial partial_name name) = true.
Proof.
  unfold Cbv.with_partial.
  destruct (contains "#" name) eqn:Hhash; cbn;
    [exact Hhash | apply contains_after_hash].
Qed.

Lemma with_partial_fixed (partial_name name : string) :
  contains "#" name = true -> Cbv.with_partial partial_name name = name.
Proof. unfold Cbv.with_partial. by intros ->. Qed.

Lemma with_partial_twice (p p' : string) (names : list string) :
  Cbv.with_partial p' <$> (Cbv.with_partial p <$> names)
  = Cbv.with_partial p <$> names.
Proof.
  induction names as [|name names IH]; cbn; [reflexivity|].
  rewrite IH. f_equal. apply with_partial_fixed, with_partial_has_hash.
Qed.

(** A string without the character is what [strip] gives back. *)
Lemma rstrip_without (c : ascii) (s : string) :
  contains c s = false -> rstrip c s = s.
Proof.
  induction s as [|a s IH]; cbn; [reflexivity|].
  destruct (Ascii.eqb a c) eqn:Hac; [discriminate|].
  intros Hrest. rewrite (IH Hrest). by destruct s.
Qed.

Lemma strip_without (c : ascii) (s : string) :
  contains c s = false -> strip c s = s.
Proof.
  intros Hnone. unfold strip.
  assert (lstrip c s = s) as ->.
  { destruct s as [|a s]; cbn in *; [reflexivity|].
    by destruct (Ascii.eqb a c). }
  by apply rstrip_without.
Qed.

End TemplateNames.

(** X1. For a template response whose [template_name] is a list of names:
    after [process_template_response] on an HTMX request, the list is as
    long as before and every name in it names a partial (it contains a
    "#"); running the method again, for any HTMX request and whatever the
    headers and the default say then, changes nothing. *)
Theorem process_template_response_idempotent
    (settings settings' : Cbv.Settings) (request request' : HttpRequest)
    (response : HttpResponse) (names : list string) :
  cls response = TemplateResponse names ->
  htmx_bool (htmx request) = true ->
  ∃ response' names',
    Cbv.process_template_response settings request response = Ok response'
    ∧ cls response' = TemplateResponse names'
    ∧ length names' = length names
    ∧ Forall (λ name, contains "#" name = true) names'
    ∧ Cbv.process_template_response settings' request' response'
      = Ok response'
    ∧ Cbvs.process_template_response request' response' = Ok response'.
Proof.
  intros Hcls Hhtmx.
  unfold Cbv.process_template_response, Cbvs.process_template_response,
    Cbv.template_response_with.
  rewrite Hhtmx, Hcls.
  eexists _, _. split; [reflexivity|]. split; [reflexivity|].
  split; [by rewrite length_fmap|].
  split.
  { apply Forall_fmap, Forall_true. intros name. cbn.
    apply with_partial_has_hash. }
  cbn [set_cls cls].
  split; (destruct (htmx_bool (htmx request')); [|reflexivity]);
    by rewrite with_partial_twice.
Qed.

(** The page of an HTMX request with the target [text], run twice *)
Lemma process_template_response_idempotent_witness :
  ∃ response',
    Cbv.process_template_response Sample.defaults Sample.hx_get_text
      Sample.page = Ok response'
    ∧ cls response' = TemplateResponse ["page.html#text"]
    ∧ Cbv.process_template_response Sample.configured Sample.hx_get
        response' = Ok response'.
Proof.
  destruct (process_template_response_idempotent Sample.defaults
              Sample.configured Sample.hx_get_text Sample.hx_get
              Sample.page ["page.html"] eq_refl eq_refl)
    as (response' & names' & Hfirst & Hcls & _ & _ & Hagain & _).
  exists response'. split; [exact Hfirst|]. split; [|exact Hagain].
  vm_compute in Hfirst. injection Hfirst as <-. reflexivity.
Defined.

(** X2. The response of [HtmxFormMixin.form_invalid] to an HTMX request
    whose trigger id is printable ASCII text without a "#" carries
    HX-Retarget "#" + trigger and HX-Reswap outerHTML, and
    [process_template_response] then picks the partial named after the
    trigger for every template name of the view, whatever the target of
    the request and the default partial name. *)
Theorem form_invalid_renders_trigger_partial
    (settings : Cbv.Settings) (view : Views.FormViewClass)
    (request : HttpRequest) (trigger : string) :
  htmx_bool (htmx request) = true ->
  htmx_trigger (htmx request) = Some trigger ->
  Mixins.printable trigger = true ->
  contains "#" trigger = false ->
  ∃ response,
    Views.form_invalid view request = Ok response
    ∧ header_get (resp_headers response) "HX-Retarget" = Some ("#" +:+ trigger)
    ∧ header_get (resp_headers response) "HX-Reswap" = Some "outerHTML"
    ∧ Cbv.process_template_response settings request response
      = Ok (set_cls response
              (TemplateResponse
                 (Cbv.with_partial trigger <$> Views.template_names view)))
    ∧ Cbvs.process_template_response request response
      = Ok (set_cls response
              (TemplateResponse
                 (Cbv.with_partial trigger <$> Views.template_names view))).
Proof.
  intros Hhtmx Htrigger _ Hplain. unfold Views.form_invalid.
  rewrite Hhtmx, Htrigger. eexists. split; [reflexivity|].
  assert (header_get
            (resp_headers
               (set_header
                  (set_header
                     (Views.render_to_response (Views.template_names view))
                     "HX-Retarget" ("#" +:+ trigger))
                  "HX-Reswap" "outerHTML")) "HX-Retarget"
          = Some ("#" +:+ trigger)) as Hretarget.
  { cbn [set_header resp_headers].
    rewrite header_get_set_ne by (vm_compute; discriminate).
    apply header_get_set_eq. }
  split; [exact Hretarget|].
  split; [cbn [set_header resp_headers]; apply header_get_set_eq|].
  unfold Cbv.process_template_response, Cbvs.process_template_response,
    Cbv.template_response_with, Cbv.partial_name_of.
  rewrite Hhtmx, Hretarget.
  change ("#" +:+ trigger) with (String "#" trigger). cbv iota.
  assert (strip "#" (String "#" trigger) = trigger) as ->.
  { change (strip "#" (String "#" trigger)) with (strip "#" trigger).
    by apply strip_without. }
  split; reflexivity.
Qed.

(** The invalid signup form: the [signup] partial of the form template *)
Lemma form_invalid_renders_trigger_partial_witness :
  ∃ response,
    Views.form_invalid Sample.bare_view Mixins.hx_post_signup = Ok response
    ∧ Cbvs.process_template_response Mixins.hx_post_signup response
      = Ok (set_cls response (TemplateResponse ["form.html#signup"])).
Proof.
  destruct (form_invalid_renders_trigger_partial Sample.defaults
              Sample.bare_view Mixins.hx_post_signup "signup"
              eq_refl eq_refl eq_refl eq_refl)
    as (response & Hinvalid & _ & _ & _ & Hpartial).
  exists response. split; [exact Hinvalid | exact Hpartial].
Defined.

(** ** The method that [process_view] leaves *)
Section ProcessViewFrame.
Context `{Framework}.

Lemma ascii_upper_idempotent (c : ascii) :
  ascii_upper (ascii_upper c) = ascii_upper c.
Proof. destruct c as [[] [] [] [] [] [] [] []]; reflexivity. Qed.

Lemma upper_idempotent (s : string) : upper (upper s) = upper s.
Proof.
  unfold upper. induction s as [|c s IH]; cbn; [reflexivity|].
  by rewrite ascii_upper_idempotent, IH.
Qed.

Lemma upper_truthy (s : string) : truthy s = true -> upper s ≠ "".
Proof. by destruct s. Qed.

End ProcessViewFrame.

(** X4. The method that [process_view] leaves is the method of the request,
    or, for a request that is not an HTMX request, a non-empty text without
    a lower-case ASCII letter: the override never leaves a method in lower
    case, whatever the form field held. *)
Theorem process_view_method_shape `{Framework} (request : HttpRequest) :
  method (Cbv.process_view request) = method request
  ∨ (htmx_bool (htmx request) = false
     ∧ method (Cbv.process_view request) ≠ ""
     ∧ upper (method (Cbv.process_view request))
       = method (Cbv.process_view request)).
Proof.
  rewrite process_view_method. unfold Cbv.override_method.
  destruct (htmx_bool (htmx request)); cbn [negb]; [by left|].
  destruct (or_else _ _) as [m|]; [|by left].
  destruct (truthy m) eqn:Hm; [|by left].
  right. cbn [set_method method].
  split; [reflexivity|]. split; [by apply upper_truthy|].
  apply upper_idempotent.
Qed.

(** ** The middleware together *)

(** X5. With MESSAGES_TEMPLATE_NAME left undefined, or set to
    "messages.html", the message middleware of django_htmx_cbv and the one
    of django_htmx_cbvs are the same function of the inner handler and the
    request: the same request and the same response come back, despite the
    different order of the three tests. *)
Theorem HtmxMessageMiddleware_same_function `{Framework}
    (settings : Cbv.Settings) (get_response : Handler)
    (request : HttpRequest) :
  Cbv.MESSAGES_TEMPLATE_NAME settings = None
  ∨ Cbv.MESSAGES_TEMPLATE_NAME settings = Some "messages.html" ->
  Cbv.HtmxMessageMiddleware settings get_response request
  = Cbvs.HtmxMessageMiddleware get_response request.
Proof.
  intros Htemplate.
  assert (Cbv.messages_template settings = "messages.html") as Hname
    by (unfold Cbv.messages_template; destruct Htemplate as [-> | ->]; done).
  unfold Cbv.HtmxMessageMiddleware, Cbvs.HtmxMessageMiddleware.
  destruct (get_response request) as [request' response].
  rewrite Hname.
  pose proof (cbv_guards_skips request' response) as Hcbv.
  pose proof (cbvs_guards_skips request' response) as Hcbvs.
  destruct (Cbv.guards request' response) eqn:Hone,
    (Cbvs.guards request' response) eqn:Htwo;
    try reflexivity; exfalso.
  all: first [ apply Hcbvs; [apply Hcbv; discriminate | reflexivity]
             | apply Hcbv; [apply Hcbvs; discriminate | reflexivity] ].
Qed.

(** An HTMX request with a pending message and a 204 answer: the same 200
    response from both. *)
Lemma HtmxMessageMiddleware_same_function_witness :
  Cbv.HtmxMessageMiddleware (H := Sample.framework) Sample.defaults
    (Sample.answer Sample.no_content) Sample.hx_get_message
  = Cbvs.HtmxMessageMiddleware (H := Sample.framework)
      (Sample.answer Sample.no_content) Sample.hx_get_message.
Proof.
  apply (HtmxMessageMiddleware_same_function (H := Sample.framework)).
  left. reflexivity.
Defined.

(** X6. What [HtmxPartialTemplateMiddleware] makes of an inner 302 is never
    given messages by a message middleware around it: for an HTMX request
    the client redirect has the HX-Redirect header, for any other request
    the 302 stays a redirection, so both implementations of the message
    middleware hand it back as it is, with the request's messages still
    pending. *)
Theorem redirects_keep_messages_pending `{Framework}
    (settings : Cbv.Settings) (get_response outer : Handler)
    (request request' request'' incoming : HttpRequest)
    (response response'' : HttpResponse) :
  get_response request = (request', response) ->
  status_code response = 302 ->
  Cbv.HtmxPartialTemplateMiddleware get_response request
  = Ok (request'', response'') ->
  outer incoming = (request'', response'') ->
  request'' = request'
  ∧ Spec.skips request'' response''
  ∧ Cbv.HtmxMessageMiddleware settings outer incoming
    = (request'', response'')
  ∧ Cbvs.HtmxMessageMiddleware outer incoming = (request'', response'').
Proof.
  intros Hinner Hstatus Hcall Houter.
  unfold Cbv.HtmxPartialTemplateMiddleware in Hcall.
  rewrite Hinner, Hstatus in Hcall.
  assert (request'' = request' ∧ Spec.skips request'' response'')
    as [-> Hskips].
  { destruct (htmx_bool (htmx request')); cbn in Hcall.
    - destruct (url response) as [u|e]; cbn in Hcall; [|discriminate].
      injection Hcall as <- <-. split; [reflexivity|]. left.
      unfold header_in, HttpResponseClientRedirect, header_set.
      cbn [resp_headers]. rewrite lookup_insert_eq.
      by apply bool_decide_eq_true_2.
    - injection Hcall as <- <-. split; [reflexivity|]. right. right.
      rewrite Hstatus. lia. }
  do 2 (split; [done|]).
  unfold Cbv.HtmxMessageMiddleware, Cbvs.HtmxMessageMiddleware.
  rewrite Houter.
  apply cbv_guards_skips in Hskips as Hone.
  apply cbvs_guards_skips in Hskips as Htwo.
  by destruct (Cbv.guards request' response''),
    (Cbvs.guards request' response'').
Qed.

(** The redirect of the test suite, with a message pending: the HTMX
    request gets the client redirect and no message in it. *)
Lemma redirects_keep_messages_pending_witness :
  Cbv.HtmxMessageMiddleware (H := Sample.framework) Sample.defaults
    (Sample.answer (HttpResponseClientRedirect "/page/"))
    Sample.hx_get_message
  = (Sample.hx_get_message, HttpResponseClientRedirect "/page/").
Proof.
  apply (redirects_keep_messages_pending (H := Sample.framework)
           Sample.defaults
           (Sample.answer (HttpResponseRedirect "/page/"))
           (Sample.answer (HttpResponseClientRedirect "/page/"))
           Sample.hx_get_message Sample.hx_get_message
           Sample.hx_get_message Sample.hx_get_message
           (HttpResponseRedirect "/page/")
           (HttpResponseClientRedirect "/page/"));
    reflexivity.
Defined.

(** ** HtmxChainedForm *)
Section ChainedForm.

Lemma odict_get_set_same {A} (d : odict A) (key : string) (v : A) :
  odict_get (odict_set d key v) key = Some v.
Proof.
  induction d as [|[k w] d IH]; cbn.
  - by rewrite bool_decide_eq_true_2.
  - case_bool_decide as Hk; cbn.
    + by rewrite bool_decide_eq_true_2.
    + by rewrite bool_decide_eq_false_2.
Qed.

Lemma odict_get_set_other {A} (d : odict A) (key key' : string) (v : A) :
  key' ≠ key -> odict_get (odict_set d key v) key' = odict_get d key'.
Proof.
  intros Hne. induction d as [|[k w] d IH]; cbn.
  - by rewrite bool_decide_eq_false_2.
  - case_bool_decide as Hk; cbn.
    + subst k. by rewrite !bool_decide_eq_false_2.
    + by rewrite IH.
Qed.

Lemma odict_set_names {A} (d : odict A) (key : string) (v : A) :
  is_Some (odict_get d key) -> (odict_set d key v).*1 = d.*1.
Proof.
  induction d as [|[k w] d IH]; cbn; [by intros [? [=]]|].
  case_bool_decide as Hk; cbn; [done|]. intros Hin. by rewrite IH.
Qed.

Lemma set_choices_ok (field_name : string) (form_field form_field' : Field)
    (choices : Choices) :
  Forms.set_choices field_name form_field choices = Ok form_field'
  <-> Mixins.accepts form_field choices = true
      ∧ form_field' = Mixins.with_choices form_field choices.
Proof.
  unfold Forms.set_choices.
  destruct form_field, choices; cbn; split;
    first [ by intros [= <-] | by intros [_ ->] | by intros [[=] _]
          | discriminate ].
Qed.

Lemma set_choices_raises (field_name : string) (form_field : Field)
    (choices : Choices) (e : exn) :
  Forms.set_choices field_name form_field choices = Raise e ->
  Mixins.accepts form_field choices = false ∧ ∃ message, e = TypeError message.
Proof.
  unfold Forms.set_choices.
  destruct form_field, choices; cbn; intros [= <-]; eauto; discriminate.
Qed.

Lemma with_choices_kind (form_field : Field) (choices : Choices) :
  has_queryset (Mixins.with_choices form_field choices)
  = has_queryset form_field
  ∧ has_choices (Mixins.with_choices form_field choices)
    = has_choices form_field.
Proof. by destruct form_field. Qed.

Lemma accepts_kind (f f' : Field) (choices : Choices) :
  has_queryset f' = has_queryset f -> has_choices f' = has_choices f ->
  Mixins.accepts f' choices = Mixins.accepts f choices.
Proof. by destruct f, f', choices. Qed.

(** What a run of the loop of [__init__] keeps and what it sets *)
Lemma apply_options_keeps (options : odict Choices) :
  ∀ fields fields' : odict Field,
    Forms.apply_options fields options = Ok fields' ->
    fields'.*1 = fields.*1
    ∧ (∀ name, name ∉ options.*1 ->
               odict_get fields' name = odict_get fields name)
    ∧ (∀ name f, odict_get fields name = Some f ->
         ∃ f', odict_get fields' name = Some f'
               ∧ has_queryset f' = has_queryset f
               ∧ has_choices f' = has_choices f).
Proof.
  induction options as [|[field_name choices] options IH];
    intros fields fields'; cbn.
  - intros [= <-]. repeat split; eauto.
  - destruct (odict_get fields field_name) as [form_field|] eqn:Hfield;
      [|discriminate].
    destruct (Forms.set_choices field_name form_field choices)
      as [form_field'|e] eqn:Hset; cbn; [|discriminate].
    apply set_choices_ok in Hset as [_ ->].
    intros Happly. destruct (IH _ _ Happly) as (Hnames & Hother & Hkind).
    split; [|split].
    + rewrite Hnames. apply odict_set_names. by rewrite Hfield.
    + intros name Hname. apply not_elem_of_cons in Hname as [Hne Hname].
      rewrite (Hother name Hname). by apply odict_get_set_other.
    + intros name f Hf. destruct (decide (name = field_name)) as [->|Hne].
      * rewrite Hfield in Hf. injection Hf as <-.
        destruct (Hkind field_name _ (odict_get_set_same _ _ _))
          as (f' & Hf' & Hq & Hc).
        destruct (with_choices_kind form_field choices) as [Hq' Hc'].
        exists f'. split; [exact Hf'|]. split; congruence.
      * apply (Hkind name f). by rewrite odict_get_set_other.
Qed.

Lemma apply_options_sets (options : odict Choices) :
  ∀ fields fields' : odict Field,
    Forms.apply_options fields options = Ok fields' ->
    NoDup options.*1 ->
    ∀ name choices f,
      (name, choices) ∈ options ->
      odict_get fields name = Some f ->
      odict_get fields' name = Some (Mixins.with_choices f choices).
Proof.
  induction options as [|[field_name choices0] options IH];
    intros fields fields'; cbn.
  - intros _ _ name choices f Hin. by apply elem_of_nil in Hin.
  - destruct (odict_get fields field_name) as [form_field|] eqn:Hfield;
      [|discriminate].
    destruct (Forms.set_choices field_name form_field choices0)
      as [form_field'|e] eqn:Hset; cbn; [|discriminate].
    apply set_choices_ok in Hset as [_ ->].
    intros Happly Hnodup name choices f Hin Hf.
    apply NoDup_cons in Hnodup as [Hfresh Hnodup].
    apply elem_of_cons in Hin as [[= -> ->] | Hin].
    + rewrite Hfield in Hf. injection Hf as <-.
      destruct (apply_options_keeps _ _ _ Happly) as (_ & Hother & _).
      rewrite (Hother _ Hfresh). apply odict_get_set_same.
    + assert (name ≠ field_name) as Hne.
      { intros ->. apply Hfresh.
        apply list_elem_of_fmap. by exists (field_name, choices). }
      apply (IH _ _ Happly Hnodup name choices f Hin).
      by rewrite odict_get_set_other.
Qed.

End ChainedForm.

Section ChainedFormErrors.

Lemma taken_after_set (fields : odict Field) (field_name : string)
    (form_field : Field) (choices : Choices) (option : string * Choices) :
  odict_get fields field_name = Some form_field ->
  Mixins.taken
    (odict_set fields field_name (Mixins.with_choices form_field choices))
    option
  <-> Mixins.taken fields option.
Proof.
  intros Hfield. unfold Mixins.taken.
  destruct (with_choices_kind form_field choices) as [Hq Hc].
  destruct (decide (option.1 = field_name)) as [->|Hne].
  - rewrite odict_get_set_same, Hfield. split; intros (f & [= <-] & Hacc);
      eexists; (split; [reflexivity|]).
    + by rewrite <- (accepts_kind _ _ _ Hq Hc).
    + by rewrite (accepts_kind _ _ _ Hq Hc).
  - by rewrite odict_get_set_other.
Qed.

Lemma apply_options_succeeds (options : odict Choices) :
  ∀ fields : odict Field,
    (∃ fields', Forms.apply_options fields options = Ok fields')
    <-> Forall (Mixins.taken fields) options.
Proof.
  induction options as [|[field_name choices] options IH]; intros fields;
    cbn.
  - split; [constructor | eauto].
  - rewrite Forall_cons. unfold Mixins.taken at 1. cbn [fst snd].
    destruct (odict_get fields field_name) as [form_field|] eqn:Hfield.
    2: { split; [by intros [? [=]] | by intros [(f & [=] & _) _]]. }
    destruct (Forms.set_choices field_name form_field choices)
      as [form_field'|e] eqn:Hset; cbn.
    + apply set_choices_ok in Hset as [Hacc ->].
      rewrite IH.
      rewrite (Forall_iff _ options (Mixins.taken fields)
                 (λ option, taken_after_set fields field_name form_field
                              choices option Hfield)).
      split; [eauto | tauto].
    + apply set_choices_raises in Hset as [Hacc _].
      split; [by intros [? [=]] | intros [(f & [= <-] & Hyes) _]; congruence].
Qed.

Lemma apply_options_raises (options : odict Choices) :
  ∀ (fields : odict Field) (e : exn),
    Forms.apply_options fields options = Raise e ->
    (∃ name, e = KeyError name ∧ name ∈ options.*1
             ∧ odict_get fields name = None)
    ∨ (∃ message, e = TypeError message).
Proof.
  induction options as [|[field_name choices] options IH]; intros fields e;
    cbn; [discriminate|].
  destruct (odict_get fields field_name) as [form_field|] eqn:Hfield.
  2: { intros [= <-]. left. exists field_name.
       split; [reflexivity|]. split; [apply list_elem_of_here | exact Hfield]. }
  destruct (Forms.set_choices field_name form_field choices)
    as [form_field'|e'] eqn:Hset; cbn.
  - intros Hrest. destruct (IH _ _ Hrest) as [(name & -> & Hin & Hnone)|Htype];
      [left | by right].
    exists name. split; [reflexivity|]. split; [by apply list_elem_of_further|].
    destruct (decide (name = field_name)) as [->|Hne].
    + by rewrite odict_get_set_same in Hnone.
    + by rewrite odict_get_set_other in Hnone.
  - intros [= <-]. right. by apply set_choices_raises in Hset as [_ ?].
Qed.

End ChainedFormErrors.

(** X7. A form that [HtmxChainedForm.__init__] builds has the fields of
    its class under the same names and in the same order, each of the same
    kind (with or without [queryset], with or without [choices]) as in
    [base_fields]; a field that no option names is the base field itself,
    and the form holds the keyword arguments it was given. *)
Theorem HtmxChainedForm_keeps_fields
    (base_fields : odict Field) (kwargs : FormKwargs) (form : Form) :
  Forms.HtmxChainedForm base_fields kwargs = Ok form ->
  form_kwargs form = kwargs
  ∧ (fields form).*1 = base_fields.*1
  ∧ (∀ name, name ∉ Mixins.option_names kwargs ->
             odict_get (fields form) name = odict_get base_fields name)
  ∧ (∀ name f, odict_get base_fields name = Some f ->
       ∃ f', odict_get (fields form) name = Some f'
             ∧ has_queryset f' = has_queryset f
             ∧ has_choices f' = has_choices f).
Proof.
  unfold Forms.HtmxChainedForm, Mixins.option_names.
  destruct (kw_options kwargs) as [options|]; cbn.
  - destruct (Forms.apply_options base_fields options) as [fields'|e]
      eqn:Happly; cbn; [|discriminate].
    intros [= <-]. cbn. split; [reflexivity|].
    by apply apply_options_keeps.
  - intros [= <-]. cbn. repeat split; eauto.
Qed.

(** The chained form with the cities as options: three fields as before,
    the countries untouched *)
Lemma HtmxChainedForm_keeps_fields_witness :
  ∃ form,
    Forms.HtmxChainedForm Sample.chained_fields Mixins.city_kwargs = Ok form
    ∧ (fields form).*1 = ["country"; "city"; "name"]
    ∧ odict_get (fields form) "country"
      = Some (ChoiceField (ChoiceList [("fr", "France")])).
Proof.
  destruct (Forms.HtmxChainedForm Sample.chained_fields Mixins.city_kwargs)
    as [form|e] eqn:Hform; [|vm_compute in Hform; discriminate Hform].
  exists form. split; [reflexivity|].
  destruct (HtmxChainedForm_keeps_fields _ _ _ Hform)
    as (_ & Hnames & Hother & _).
  split; [exact Hnames|].
  rewrite Hother; [reflexivity|].
  vm_compute. intros Hin. inversion Hin as [|? ? ? Hnil]; inversion Hnil.
Defined.

(** X8. When the options, a dict, are taken, every field they name holds
    the choices given for it: as its [queryset] when the field has one, as
    its [choices] when it has only those, and a field with neither is left
    as it is, without an error. *)
Theorem HtmxChainedForm_sets_choices
    (base_fields : odict Field) (kwargs : FormKwargs) (form : Form)
    (options : odict Choices) :
  Forms.HtmxChainedForm base_fields kwargs = Ok form ->
  kw_options kwargs = Some options ->
  NoDup options.*1 ->
  ∀ name choices f,
    (name, choices) ∈ options ->
    odict_get base_fields name = Some f ->
    odict_get (fields form) name = Some (Mixins.with_choices f choices).
Proof.
  unfold Forms.HtmxChainedForm. intros Hform Hoptions.
  rewrite Hoptions in Hform. cbn in Hform.
  destruct (Forms.apply_options base_fields options) as [fields'|e]
    eqn:Happly; cbn in Hform; [|discriminate].
  injection Hform as <-. cbn. intros Hnodup.
  by apply apply_options_sets.
Qed.

(** The chained form with the cities as options: the [city] field offers
    Paris and Lyon. *)
Lemma HtmxChainedForm_sets_choices_witness :
  ∃ form,
    Forms.HtmxChainedForm Sample.chained_fields Mixins.city_kwargs = Ok form
    ∧ odict_get (fields form) "city"
      = Some (ChoiceField (ChoiceList [("par", "Paris"); ("lyo", "Lyon")])).
Proof.
  destruct (Forms.HtmxChainedForm Sample.chained_fields Mixins.city_kwargs)
    as [form|e] eqn:Hform; [|vm_compute in Hform; discriminate Hform].
  exists form. split; [reflexivity|].
  apply (HtmxChainedForm_sets_choices _ _ _
           (Sample.city_options Sample.hx_city) Hform eq_refl
           ltac:(repeat constructor; set_solver)
           "city" (ChoiceList [("par", "Paris"); ("lyo", "Lyon")])
           (ChoiceField (ChoiceList [])));
    [apply list_elem_of_here | reflexivity].
Defined.

(** X9. [HtmxChainedForm.__init__] succeeds exactly when every option names
    a field of the form that accepts its choices (a QuerySet for a field
    with a [queryset], a list for a field with only [choices], anything for
    a field with neither). When it raises, it raises a KeyError for an
    option that names no field of the form, or a TypeError. *)
Theorem HtmxChainedForm_accepts_options
    (base_fields : odict Field) (kwargs : FormKwargs) :
  ((∃ form, Forms.HtmxChainedForm base_fields kwargs = Ok form)
   <-> Forall (Mixins.taken base_fields) (default [] (kw_options kwargs)))
  ∧ (∀ e, Forms.HtmxChainedForm base_fields kwargs = Raise e ->
       (∃ name, e = KeyError name ∧ name ∈ Mixins.option_names kwargs
                ∧ odict_get base_fields name = None)
       ∨ (∃ message, e = TypeError message)).
Proof.
  unfold Forms.HtmxChainedForm, Mixins.option_names.
  destruct (kw_options kwargs) as [options|]; cbn.
  - split.
    + rewrite <- apply_options_succeeds.
      destruct (Forms.apply_options base_fields options); cbn;
        split; intros [? ?]; eauto; discriminate.
    + intros e.
      destruct (Forms.apply_options base_fields options) as [fields'|e']
        eqn:Happly; cbn; [discriminate|].
      intros [= <-]. by apply apply_options_raises in Happly.
  - split; [split; [constructor | eauto] | discriminate].
Qed.

(** A list where a QuerySet is due: the form of a view that gives a list
    for a model choice field is not built. *)
Lemma HtmxChainedForm_accepts_options_witness :
  ¬ ∃ form,
      Forms.HtmxChainedForm Mixins.author_fields Mixins.author_list_kwargs
      = Ok form.
Proof.
  intros Hform.
  apply (HtmxChainedForm_accepts_options Mixins.author_fields) in Hform.
  cbn in Hform. apply Forall_cons in Hform as [(f & Hf & Hacc) _].
  vm_compute in Hf. injection Hf as <-. discriminate Hacc.
Defined.

(** ** HyperFormMixin *)
Section Initial.

Lemma get_initial_lookup (view : Views.FormViewClass) (q : QueryDict)
    (key : string) :
  (filter (λ kv, is_Some (odict_get (Views.base_fields view) kv.1))
     (qd_dict q) ∪ Views.initial view) !! key
  = match q !! key with
    | Some values =>
        if bool_decide (is_Some (odict_get (Views.base_fields view) key))
        then Some (last values)
        else Views.initial view !! key
    | None => Views.initial view !! key
    end.
Proof.
  unfold qd_dict. rewrite lookup_union, map_lookup_filter, lookup_fmap.
  destruct (q !! key) as [values|]; cbn.
  - case_bool_decide as Hfield.
    + rewrite option_guard_True by done. cbn.
      by destruct (Views.initial view !! key).
    + rewrite option_guard_False by done. cbn.
      by destruct (Views.initial view !! key).
  - by destruct (Views.initial view !! key).
Qed.

End Initial.

(** X10. [HyperFormMixin.get_initial] of a view that is not GET-only gives
    the view's [initial] overridden, for every URL parameter that names a
    field of the form, by the last value of that parameter; a parameter
    that names no field never enters the initial data. A GET-only view gets
    its [initial] as it is, and [request.QUERY] is not even read. *)
Theorem get_initial_merges_url_parameters
    (view : Views.FormViewClass) (request : HttpRequest) :
  (Views.http_method_names view = ["get"] ->
     Views.get_initial view request = Ok (Views.initial view))
  ∧ (Views.http_method_names view ≠ ["get"] ->
     ∀ q, QUERY request = Some q ->
       ∃ merged,
         Views.get_initial view request = Ok merged
         ∧ ∀ key,
             merged !! key
             = match q !! key with
               | Some values =>
                   if bool_decide
                        (is_Some (odict_get (Views.base_fields view) key))
                   then Some (last values)
                   else Views.initial view !! key
               | None => Views.initial view !! key
               end).
Proof.
  unfold Views.get_initial, Views.attr_QUERY. split.
  - intros ->. by rewrite bool_decide_eq_false_2 by (intros Hne; by apply Hne).
  - intros Hverbs q ->. rewrite bool_decide_eq_true_2 by done. cbn.
    unfold qd_truthy. case_bool_decide as Hq.
    + eexists. split; [reflexivity|]. apply get_initial_lookup.
    + eexists. split; [reflexivity|]. intros key.
      assert (q = ∅) as -> by (by destruct (decide (q = ∅))).
      by rewrite lookup_empty.
Qed.

(** The request for the city select carries [country=fr]: the country
    field starts at [fr]. *)
Lemma get_initial_merges_url_parameters_witness :
  ∃ merged,
    Views.get_initial Sample.city_view Sample.hx_city = Ok merged
    ∧ merged !! "country" = Some (Some "fr")
    ∧ merged !! "page" = None.
Proof.
  destruct (get_initial_merges_url_parameters Sample.city_view
              Sample.hx_city) as [_ Hmerge].
  destruct (Hmerge ltac:(discriminate) (Sample.parse "country=fr")
              ltac:(vm_compute; reflexivity)) as (merged & Hcall & Hlookup).
  exists merged. split; [exact Hcall|].
  split; rewrite Hlookup; vm_compute; reflexivity.
Defined.

Section FormKwargs.

(** The keyword arguments of a view that handles more than GET *)
Lemma get_form_kwargs_standard (view : Views.FormViewClass)
    (request : HttpRequest) (q : QueryDict) :
  Views.http_method_names view ≠ ["get"] ->
  QUERY request = Some q ->
  ∃ initial,
    Views.get_initial view request = Ok initial
    ∧ (method request = "GET" ->
         Views.HyperFormMixin_get_form_kwargs view request
         = Ok {| kw_initial := initial; kw_prefix := Views.prefix view;
                 kw_data := None; kw_files := None; kw_options := None |})
    ∧ (method request ≠ "GET" ->
       ∀ b, BODY request = Some b ->
         Views.HyperFormMixin_get_form_kwargs view request
         = Ok {| kw_initial := initial; kw_prefix := Views.prefix view;
                 kw_data := Some (DataQuery b);
                 kw_files := Some (FILES request); kw_options := None |})
    ∧ (method request ≠ "GET" ->
       BODY request = None ->
         Views.HyperFormMixin_get_form_kwargs view request
         = Raise (AttributeError "BODY")).
Proof.
  intros Hverbs Hquery.
  assert (∃ initial, Views.get_initial view request = Ok initial)
    as [initial Hinitial].
  { unfold Views.get_initial, Views.attr_QUERY. rewrite Hquery. cbn.
    case_bool_decide; [destruct (qd_truthy q)|]; eauto. }
  exists initial. split; [exact Hinitial|].
  unfold Views.HyperFormMixin_get_form_kwargs,
    Views.FormMixin_get_form_kwargs, Views.attr_BODY.
  rewrite Hinitial. cbn.
  rewrite (bool_decide_eq_false_2 _ Hverbs).
  split; [|split].
  - intros Hget. rewrite Hget.
    rewrite (bool_decide_eq_false_2 ("GET" ∈ ["POST"; "PUT"]))
      by (intros Hin; verb_cases).
    cbn.
    by rewrite (bool_decide_eq_false_2 ("GET" ≠ "GET"))
      by (intros Hne; by apply Hne).
  - intros Hother b Hbody. rewrite Hbody.
    by repeat (case_bool_decide; cbn).
  - intros Hother Hbody. rewrite Hbody.
    by repeat (case_bool_decide; cbn).
Qed.

End FormKwargs.

(** X11. For a view that handles more than GET, on a request that has
    passed [process_view]: a GET leaves the form unbound (no [data], no
    [files]); any other verb binds the form to [request.BODY] and
    [request.FILES], also for POST and PUT, where the framework's own
    [get_form_kwargs] had taken [request.POST]; and a request other than
    GET without a [request.BODY] raises AttributeError. The arguments never
    hold [options]. *)
Theorem get_form_kwargs_binds_BODY
    (view : Views.FormViewClass) (request : HttpRequest) (q : QueryDict) :
  Views.http_method_names view ≠ ["get"] ->
  QUERY request = Some q ->
  (method request = "GET" ->
     ∃ kwargs,
       Views.HyperFormMixin_get_form_kwargs view request = Ok kwargs
       ∧ kw_data kwargs = None ∧ kw_files kwargs = None
       ∧ kw_options kwargs = None ∧ kw_prefix kwargs = Views.prefix view
       ∧ Views.get_initial view request = Ok (kw_initial kwargs))
  ∧ (method request ≠ "GET" ->
     ∀ b, BODY request = Some b ->
       ∃ kwargs,
         Views.HyperFormMixin_get_form_kwargs view request = Ok kwargs
         ∧ kw_data kwargs = Some (DataQuery b)
         ∧ kw_files kwargs = Some (FILES request)
         ∧ kw_options kwargs = None ∧ kw_prefix kwargs = Views.prefix view
         ∧ Views.get_initial view request = Ok (kw_initial kwargs))
  ∧ (method request ≠ "GET" ->
     BODY request = None ->
       Views.HyperFormMixin_get_form_kwargs view request
       = Raise (AttributeError "BODY")).
Proof.
  intros Hverbs Hquery.
  destruct (get_form_kwargs_standard view request q Hverbs Hquery)
    as (initial & Hinitial & Hget & Hbound & Hunset).
  split; [|split].
  - intros Hverb. eexists. split; [exact (Hget Hverb)|]. by cbn.
  - intros Hverb b Hbody. eexists. split; [exact (Hbound Hverb b Hbody)|].
    by cbn.
  - exact Hunset.
Qed.

(** The signup POST: the form is bound to the body of the request. *)
Lemma get_form_kwargs_binds_BODY_witness :
  ∃ kwargs,
    Views.HyperFormMixin_get_form_kwargs Sample.bare_view
      Mixins.hx_post_signup = Ok kwargs
    ∧ kw_data kwargs = Some (DataQuery {[ "name" := ["Ann"] ]}).
Proof.
  destruct (get_form_kwargs_binds_BODY
              Sample.bare_view Mixins.hx_post_signup ∅
              ltac:(discriminate) ltac:(vm_compute; reflexivity))
    as (_ & Hbound & _).
  assert (BODY Mixins.hx_post_signup = Some {[ "name" := ["Ann"] ]})
    as Hbody by (vm_compute; reflexivity).
  destruct (Hbound ltac:(vm_compute; discriminate) _ Hbody)
    as (kwargs & Hcall & Hdata & _).
  exists kwargs. split; [exact Hcall | exact Hdata].
Defined.

(** X12. For a GET-only view, a GET form: the form is bound to the URL
    parameters when there are any, else to the view's [initial] when that
    is not empty, and it is left unbound when both are empty. *)
Theorem get_form_kwargs_GET_form
    (view : Views.FormViewClass) (request : HttpRequest) (q : QueryDict) :
  Views.http_method_names view = ["get"] ->
  method request = "GET" ->
  QUERY request = Some q ->
  ∃ kwargs,
    Views.HyperFormMixin_get_form_kwargs view request = Ok kwargs
    ∧ kw_initial kwargs = Views.initial view
    ∧ kw_options kwargs = None
    ∧ (q ≠ ∅ ->
         kw_data kwargs = Some (DataQuery q)
         ∧ kw_files kwargs = Some (FILES request))
    ∧ (q = ∅ -> Views.initial view ≠ ∅ ->
         kw_data kwargs = Some (DataInitial (Views.initial view))
         ∧ kw_files kwargs = Some (FILES request))
    ∧ (q = ∅ -> Views.initial view = ∅ ->
         kw_data kwargs = None ∧ kw_files kwargs = None).
Proof.
  intros Hverbs Hverb Hquery.
  unfold Views.HyperFormMixin_get_form_kwargs,
    Views.FormMixin_get_form_kwargs, Views.get_initial, Views.attr_QUERY.
  rewrite Hverbs, Hverb, Hquery.
  rewrite (bool_decide_eq_false_2 (["get"] ≠ ["get"]))
    by (intros Hne; by apply Hne).
  cbn.
  rewrite (bool_decide_eq_false_2 ("GET" ∈ ["POST"; "PUT"]))
    by (intros Hin; verb_cases).
  cbn. unfold qd_truthy.
  repeat (case_bool_decide; cbn); try congruence;
    eexists; (split; [reflexivity|]); cbn;
    repeat split; try done; intros; congruence.
Qed.

(** A search form, GET-only, asked for [q=htmx]: bound to the parameters *)
Lemma get_form_kwargs_GET_form_witness :
  ∃ kwargs,
    Views.HyperFormMixin_get_form_kwargs Mixins.search_view
      Mixins.search_request = Ok kwargs
    ∧ kw_data kwargs = Some (DataQuery {[ "q" := ["htmx"] ]}).
Proof.
  assert (QUERY Mixins.search_request = Some {[ "q" := ["htmx"] ]})
    as Hquery by (vm_compute; reflexivity).
  destruct (get_form_kwargs_GET_form
              Mixins.search_view Mixins.search_request _ eq_refl
              ltac:(vm_compute; reflexivity) Hquery)
    as (kwargs & Hcall & _ & _ & Hbound & _).
  exists kwargs. split; [exact Hcall|].
  apply Hbound. intros Hempty.
  apply (f_equal (λ m : QueryDict, m !! "q")) in Hempty.
  vm_compute in Hempty. discriminate Hempty.
Defined.

Section AfterProcessView.
Context `{Framework}.



End AfterProcessView.



(** ** SingleObjectPermissionMixin and ModelFormView *)

(** X14. [SingleObjectPermissionMixin.setup] never lets through an object
    that the permission check did not allow: it sets [self.object] to an
    object exactly when [get_object] found that object and the view's own
    [has_permission] returned True for it, and to [None] exactly when
    [get_object] raised AttributeError (no object named: a creation); any
    other exception of [get_object] is raised as it is. *)
Theorem setup_outcomes
    (view : Views.ModelViewClass) (request : HttpRequest) :
  (∀ obj,
     Views.setup view request = Ok (Some obj)
     <-> Views.get_object view request = Ok obj
         ∧ ∃ allowed,
             Views.has_permission_override view = Some allowed
             ∧ allowed request obj = true)
  ∧ (Views.setup view request = Ok None
     <-> ∃ attr, Views.get_object view request = Raise (AttributeError attr))
  ∧ (∀ e, Views.get_object view request = Raise e ->
          (∀ attr, e ≠ AttributeError attr) ->
          Views.setup view request = Raise e).
Proof.
  unfold Views.setup, Views.has_permission,
    Views.SingleObjectPermissionMixin_has_permission.
  destruct (Views.get_object view request) as [found|e]; cbn.
  - destruct (Views.has_permission_override view) as [allowed|]; cbn.
    + destruct (allowed request found) eqn:Hallowed; cbn.
      * split; [|split]; [|split; [discriminate | by intros [? [=]]]
                         |discriminate].
        intros obj. split; [intros [= <-]; eauto|].
        by intros [[= ->] _].
      * split; [|split]; [|split; [discriminate | by intros [? [=]]]
                         |discriminate].
        intros obj. split; [discriminate|].
        intros [[= ->] (allowed' & [= <-] & Hyes)]. congruence.
    + split; [|split]; [|split; [discriminate | by intros [? [=]]]
                       |discriminate].
      intros obj. split; [discriminate|]. by intros [_ (? & [=] & _)].
  - destruct e; cbn;
      (split; [|split];
       [ intros obj; split; [discriminate | by intros [[=] _]]
       | split; [try discriminate; eauto | try (by intros [? [=]]); done]
       | intros e' [= <-] Hother; try reflexivity; by destruct (Hother attr) ]).
Qed.

Section DeleteLoop.

Lemma delete_related_keeps (q : QueryDict) (obj obj' : Views.Instance)
    (name : string) :
  Views.delete_related q obj name = Ok obj' ->
  (Views.field_values obj').*1 = (Views.field_values obj).*1
  ∧ ∀ other, other ≠ name ->
      odict_get (Views.field_values obj') other
      = odict_get (Views.field_values obj) other.
Proof.
  unfold Views.delete_related.
  destruct (odict_get (Views.field_values obj) name)
    as [[prep related|[pk|]|value]|] eqn:Hfield; [| | | |discriminate].
  - destruct (Views.prep_all prep _) as [pks|e]; cbn; [|discriminate].
    intros [= <-]. cbn. split.
    + apply odict_set_names. by rewrite Hfield.
    + intros other Hne. by apply odict_get_set_other.
  - destruct (qd_get q name) as [[|c requested]|]; try by intros [= <-].
    destruct (Views.pk_eq pk _); [|discriminate].
    intros [= <-]. cbn. split.
    + apply odict_set_names. by rewrite Hfield.
    + intros other Hne. by apply odict_get_set_other.
  - by intros [= <-].
  - destruct (truthy value && _); [discriminate|]. by intros [= <-].
Qed.

Lemma delete_all_related_keeps (q : QueryDict) (names : list string) :
  ∀ obj obj' : Views.Instance,
    Views.delete_all_related q obj names = Ok obj' ->
    (Views.field_values obj').*1 = (Views.field_values obj).*1.
Proof.
  induction names as [|name names IH]; intros obj obj'; cbn.
  - by intros [= <-].
  - destruct (Views.delete_related q obj name) as [obj1|e] eqn:Hone; cbn;
      [|discriminate].
    intros Hrest. rewrite (IH _ _ Hrest).
    by destruct (delete_related_keeps _ _ _ _ Hone) as [-> _].
Qed.

Lemma set_order_nil (set_order : list string -> list string)
    (names : list string) :
  (∀ l, set_order l ≡ₚ l) -> set_order names = [] <-> names = [].
Proof.
  intros Horder. split.
  - intros Hnil. pose proof (Horder names) as Hperm. rewrite Hnil in Hperm.
    by apply Permutation_nil in Hperm.
  - intros ->. pose proof (Horder []) as Hperm. symmetry in Hperm.
    by apply Permutation_nil in Hperm.
Qed.

(** What [ModelFormView.delete] does to the object, apart from the answer *)
Lemma ModelFormView_delete_kept (view : Views.ModelViewClass)
    (set_order : list string -> list string) (obj : Views.Instance)
    (request request' : HttpRequest) (response : HttpResponse)
    (kept : option Views.Instance) (q : QueryDict) :
  QUERY request = Some q ->
  Views.ModelFormView_delete view set_order obj request
  = Ok (kept, request', response) ->
  ∃ obj1,
    Views.delete_all_related q obj (set_order (Views.related_names q obj))
    = Ok obj1
    ∧ kept = match set_order (Views.related_names q obj) with
             | [] => None
             | _ => Some obj1
             end.
Proof.
  intros Hquery. unfold Views.ModelFormView_delete, Views.attr_QUERY.
  rewrite Hquery. cbn.
  destruct (Views.delete_all_related q obj _) as [obj1|e]; cbn;
    [|discriminate].
  destruct (Views.get_success_message view) as [message|e]; cbn;
    [|discriminate].
  intros Hreturn. exists obj1. split; [reflexivity|].
  destruct (truthy message); cbn in Hreturn;
    (destruct (htmx_bool (htmx request)); cbn in Hreturn;
     [ by injection Hreturn as <- _ _
     | destruct (Views.get_success_url _); cbn in Hreturn; [|discriminate];
       by injection Hreturn as <- _ _ ]).
Qed.

End DeleteLoop.

(** The view that allows every request is given the book. *)
Lemma setup_outcomes_witness :
  Views.setup Mixins.open_view Sample.delete_author = Ok (Some Sample.book).
Proof.
  destruct (setup_outcomes Mixins.open_view Sample.delete_author)
    as [Hfound _].
  apply Hfound. split; [reflexivity|].
  exists (λ _ _, true). split; reflexivity.
Defined.

(** X15. When [ModelFormView.delete] returns, the row of the object is
    deleted exactly when no URL parameter names one of its fields, in
    whatever order the set of names is visited; an object that is kept has
    its fields under the same names and in the same order. *)
Theorem ModelFormView_delete_object
    (view : Views.ModelViewClass) (set_order : list string -> list string)
    (obj : Views.Instance) (kept : option Views.Instance)
    (request request' : HttpRequest) (response : HttpResponse)
    (q : QueryDict) :
  (∀ names, set_order names ≡ₚ names) ->
  QUERY request = Some q ->
  Views.ModelFormView_delete view set_order obj request
  = Ok (kept, request', response) ->
  (kept = None <-> Views.related_names q obj = [])
  ∧ (∀ obj', kept = Some obj' ->
       (Views.field_values obj').*1 = (Views.field_values obj).*1).
Proof.
  intros Horder Hquery Hcall.
  destruct (ModelFormView_delete_kept _ _ _ _ _ _ _ _ Hquery Hcall)
    as (obj1 & Hloop & ->).
  pose proof (set_order_nil set_order (Views.related_names q obj) Horder)
    as Hnil.
  destruct (set_order (Views.related_names q obj)) as [|name names] eqn:Hset.
  - split; [split; [intros _; by apply Hnil | done]|]. intros obj' [=].
  - split.
    + split; [discriminate|]. intros Hnone. apply Hnil in Hnone.
      discriminate Hnone.
    + intros obj' [= <-]. by apply delete_all_related_keeps in Hloop.
Qed.

(** A DELETE without parameters deletes the book; one that names two tags
    keeps it. *)
Lemma ModelFormView_delete_object_witness :
  (∃ request' response,
     Views.ModelFormView_delete Mixins.open_view Mixins.backwards
       Sample.book Mixins.delete_plain = Ok (None, request', response))
  ∧ (∃ obj' request' response,
       Views.ModelFormView_delete Mixins.open_view Mixins.backwards
         Sample.book Mixins.delete_tags = Ok (Some obj', request', response)).
Proof.
  split.
  - destruct (Views.ModelFormView_delete Mixins.open_view Mixins.backwards
                Sample.book Mixins.delete_plain)
      as [[[kept request'] response]|e] eqn:Hcall;
      [|vm_compute in Hcall; discriminate Hcall].
    assert (QUERY Mixins.delete_plain = Some ∅) as Hquery
      by (vm_compute; reflexivity).
    destruct (ModelFormView_delete_object _ _ _ _ _ _ _ _
                (λ names, reverse_Permutation names) Hquery Hcall)
      as [[_ Hnone] _].
    rewrite (Hnone ltac:(vm_compute; reflexivity)). eauto.
  - destruct (Views.ModelFormView_delete Mixins.open_view Mixins.backwards
                Sample.book Mixins.delete_tags)
      as [[[kept request'] response]|e] eqn:Hcall;
      [|vm_compute in Hcall; discriminate Hcall].
    assert (QUERY Mixins.delete_tags = Some (Sample.parse "tags=2&tags=5"))
      as Hquery by (vm_compute; reflexivity).
    destruct (ModelFormView_delete_object _ _ _ _ _ _ _ _
                (λ names, reverse_Permutation names) Hquery Hcall)
      as [[Hnone _] _].
    destruct kept as [obj'|]; [eauto|].
    specialize (Hnone eq_refl). vm_compute in Hnone. discriminate Hnone.
Defined.



Section Conversion.

Lemma prep_all_converts (prep : string -> option Views.Pk)
    (values : list string) (pks : list Views.Pk) :
  Views.prep_all prep values = Ok pks ->
  Forall2 (λ value pk, prep value = Some pk) values pks.
Proof.
  revert pks. induction values as [|value values IH]; intros pks; cbn.
  - intros [= <-]. constructor.
  - destruct (prep value) as [pk|] eqn:Hpk; [|discriminate].
    destruct (Views.prep_all prep values) as [rest|e]; cbn; [|discriminate].
    intros [= <-]. constructor; [exact Hpk | by apply IH].
Qed.

Lemma prep_all_fails (prep : string -> option Views.Pk)
    (values : list string) (value : string) :
  value ∈ values -> prep value = None ->
  ∃ bad, Views.prep_all prep values = Raise (ValueError bad)
         ∧ bad ∈ values ∧ prep bad = None.
Proof.
  intros Hin Hnone. induction values as [|head values IH];
    [by apply elem_of_nil in Hin|].
  cbn. destruct (prep head) as [pk|] eqn:Hhead.
  - apply elem_of_cons in Hin as [->|Hin]; [congruence|].
    destruct (IH Hin) as (bad & -> & Hbad & Hbadnone). cbn.
    exists bad. split; [reflexivity|].
    split; [by apply list_elem_of_further | exact Hbadnone].
  - exists head. split; [reflexivity|].
    split; [apply list_elem_of_here | exact Hhead].
Qed.

End Conversion.

Section DeleteRaises.

Lemma delete_related_exceptions (q : QueryDict) (obj : Views.Instance)
    (name : string) (e : exn) :
  Views.delete_related q obj name = Raise e ->
  e = BadRequest ∨ (∃ attr, e = AttributeError attr)
  ∨ (∃ value, e = ValueError value).
Proof.
  unfold Views.delete_related.
  destruct (odict_get (Views.field_values obj) name)
    as [[prep related|[pk|]|value]|]; try discriminate.
  - generalize (qd_getlist q name). intros values.
    destruct (Views.prep_all prep values) as [pks|e'] eqn:Hprep; cbn;
      [discriminate|].
    intros [= <-]. right. right. clear -Hprep.
    revert e' Hprep. induction values as [|value values IH]; cbn;
      [discriminate|]. intros e'.
    destruct (prep value); [|intros [= <-]; eauto].
    destruct (Views.prep_all prep values); cbn; [discriminate|].
    intros [= <-]. by apply IH.
  - destruct (qd_get q name) as [[|c requested]|]; try discriminate.
    destruct (Views.pk_eq pk _); [discriminate|]. intros [= <-]. by left.
  - destruct (truthy value && _); [|discriminate]. intros [= <-]. eauto.
  - intros [= <-]. eauto.
Qed.

Lemma delete_all_related_integer_pk (q : QueryDict) (name requested : string)
    (n : Z) (names : list string) :
  qd_get q name = Some requested -> requested ≠ "" ->
  name ∈ names ->
  ∀ obj : Views.Instance,
    odict_get (Views.field_values obj) name
    = Some (Views.Related (Some (Views.IntPk n))) ->
    ∃ e, Views.delete_all_related q obj names = Raise e
         ∧ (e = BadRequest ∨ (∃ attr, e = AttributeError attr)
            ∨ (∃ value, e = ValueError value)).
Proof.
  intros Hrequested Hne. induction names as [|head names IH];
    intros Hin obj Hfield; [by apply elem_of_nil in Hin|].
  cbn. destruct (decide (head = name)) as [->|Hother].
  - unfold Views.delete_related at 1. rewrite Hfield, Hrequested.
    destruct requested; [done|]. cbn. eauto.
  - destruct (Views.delete_related q obj head) as [obj1|e] eqn:Hone; cbn.
    + apply elem_of_cons in Hin as [->|Hin]; [done|].
      apply (IH Hin).
      destruct (delete_related_keeps _ _ _ _ Hone) as (_ & Hsame).
      rewrite Hsame; [exact Hfield | congruence].
    + exists e. split; [reflexivity|].
      by apply delete_related_exceptions in Hone.
Qed.

End DeleteRaises.

(** X17. [ModelFormView.delete] compares the related object's primary key
    with the text of the URL parameter. A related object whose primary key
    is an integer never compares equal to it: a request with a non-empty
    value for such a relation never returns, in whatever order the set of
    names is visited. It ends in BadRequest, or in the exception of another
    parameter that the loop meets first: the AttributeError of a plain
    field or the ValueError of a many-to-many value that is no key. *)
Theorem ModelFormView_delete_integer_pk
    (view : Views.ModelViewClass) (set_order : list string -> list string)
    (obj : Views.Instance) (request : HttpRequest) (q : QueryDict)
    (name requested : string) (n : Z) :
  (∀ names, set_order names ≡ₚ names) ->
  QUERY request = Some q ->
  odict_get (Views.field_values obj) name
  = Some (Views.Related (Some (Views.IntPk n))) ->
  qd_get q name = Some requested ->
  requested ≠ "" ->
  ∃ e, Views.ModelFormView_delete view set_order obj request = Raise e
       ∧ (e = BadRequest ∨ (∃ attr, e = AttributeError attr)
          ∨ (∃ value, e = ValueError value)).
Proof.
  intros Horder Hquery Hfield Hrequested Hne.
  unfold Views.ModelFormView_delete, Views.attr_QUERY. rewrite Hquery. cbn.
  assert (name ∈ set_order (Views.related_names q obj)) as Hin.
  { rewrite (Horder _).
    unfold Views.related_names. apply list_elem_of_filter. split.
    - unfold qd_get in Hrequested.
      destruct (q !! name); [eauto | discriminate].
    - clear -Hfield. induction (Views.field_values obj) as [|[k v] d IH];
        cbn in *; [discriminate|].
      case_bool_decide; [subst; apply list_elem_of_here|].
      by apply list_elem_of_further, IH. }
  destruct (delete_all_related_integer_pk q name requested n _
              Hrequested Hne Hin obj Hfield) as (e & -> & He).
  exists e. by split.
Qed.

(** The author with the primary key 7, asked for as [author=7] *)
Lemma ModelFormView_delete_integer_pk_witness :
  Views.ModelFormView_delete Mixins.open_view Mixins.backwards
    Mixins.numbered_book
    (Cbv.process_view (H := Sample.framework)
       (Sample.request "DELETE" "" "author=7" "" ∅ Sample.no_htmx ∅ []))
  = Raise BadRequest.
Proof.
  assert (QUERY (Cbv.process_view (H := Sample.framework)
                   (Sample.request "DELETE" "" "author=7" "" ∅
                      Sample.no_htmx ∅ []))
          = Some (Sample.parse "author=7")) as Hquery
    by (vm_compute; reflexivity).
  destruct (ModelFormView_delete_integer_pk Mixins.open_view
              Mixins.backwards Mixins.numbered_book _ _ "author" "7" 7
              (λ names, reverse_Permutation names) Hquery
              ltac:(vm_compute; reflexivity) ltac:(vm_compute; reflexivity)
              ltac:(discriminate)) as (e & Hcall & _).
  rewrite Hcall. vm_compute in Hcall. by injection Hcall as <-.
Defined.

(** X18. A DELETE whose only parameter that names a field names a
    many-to-many relation converts the values of the parameter to primary
    keys as the related model does. When every value converts, it removes
    from the relation the keys so listed, and those only; the object is
    kept and not saved, and its other fields are as they were. When a value
    does not convert, it raises ValueError and returns nothing. *)
Theorem ModelFormView_delete_many_to_many
    (view : Views.ModelViewClass) (set_order : list string -> list string)
    (obj : Views.Instance) (request : HttpRequest) (q : QueryDict)
    (name : string) (prep : string -> option Views.Pk)
    (related : list Views.Pk) :
  (∀ names, set_order names ≡ₚ names) ->
  QUERY request = Some q ->
  Views.related_names q obj = [name] ->
  odict_get (Views.field_values obj) name
  = Some (Views.ManyToMany prep related) ->
  (∀ kept request' response,
     Views.ModelFormView_delete view set_order obj request
     = Ok (kept, request', response) ->
     ∃ pks obj' remaining,
       Views.prep_all prep (qd_getlist q name) = Ok pks
       ∧ Forall2 (λ value pk, prep value = Some pk) (qd_getlist q name) pks
       ∧ kept = Some obj'
       ∧ odict_get (Views.field_values obj') name
         = Some (Views.ManyToMany prep remaining)
       ∧ (∀ pk, pk ∈ remaining <-> pk ∈ related ∧ pk ∉ pks)
       ∧ Views.saved obj' = Views.saved obj
       ∧ ∀ other, other ≠ name ->
           odict_get (Views.field_values obj') other
           = odict_get (Views.field_values obj) other)
  ∧ (∀ value, value ∈ qd_getlist q name -> prep value = None ->
       ∃ message, Views.ModelFormView_delete view set_order obj request
                  = Raise (ValueError message)).
Proof.
  intros Horder Hquery Hnames Hfield.
  unfold Views.ModelFormView_delete, Views.attr_QUERY.
  rewrite Hquery. cbn. rewrite Hnames.
  rewrite (proj1 (Permutation_singleton_r _ _) (Horder [name])). cbn.
  unfold Views.delete_related. rewrite Hfield.
  split.
  - intros kept request' response.
    destruct (Views.prep_all prep (qd_getlist q name)) as [pks|e] eqn:Hprep;
      cbn; [|discriminate].
    intros Hreturn.
    exists pks. eexists. exists (filter (λ pk, pk ∉ pks) related).
    split; [reflexivity|].
    split; [by apply prep_all_converts|].
    split.
    { destruct (Views.get_success_message view); cbn in Hreturn;
        [|discriminate].
      destruct (htmx_bool _); cbn in Hreturn.
      - injection Hreturn as <- _ _. reflexivity.
      - destruct (Views.get_success_url _); cbn in Hreturn; [|discriminate].
        injection Hreturn as <- _ _. reflexivity. }
    cbn. split; [apply odict_get_set_same|].
    split; [intros pk; rewrite list_elem_of_filter; tauto|].
    split; [reflexivity|].
    intros other Hne. by apply odict_get_set_other.
  - intros value Hin Hnone.
    destruct (prep_all_fails prep (qd_getlist q name) value Hin Hnone)
      as (bad & -> & _).
    by exists bad.
Qed.

(** The book tagged 1 and 2, asked to drop the tags [02] and [5]: the tag
    1 stays. *)
Lemma ModelFormView_delete_many_to_many_witness :
  ∃ obj' request' response,
    Views.ModelFormView_delete Mixins.open_view Mixins.backwards
      Mixins.numbered_book Mixins.delete_tags_padded
    = Ok (Some obj', request', response)
    ∧ odict_get (Views.field_values obj') "tags"
      = Some (Views.ManyToMany Mixins.small_int [Views.IntPk 1]).
Proof.
  destruct (Views.ModelFormView_delete Mixins.open_view Mixins.backwards
              Mixins.numbered_book Mixins.delete_tags_padded)
    as [[[kept request'] response]|e] eqn:Hcall;
    [|vm_compute in Hcall; discriminate Hcall].
  assert (QUERY Mixins.delete_tags_padded
          = Some (Sample.parse "tags=02&tags=5"))
    as Hquery by (vm_compute; reflexivity).
  assert (Views.related_names (Sample.parse "tags=02&tags=5")
            Mixins.numbered_book = ["tags"]) as Hnames
    by (vm_compute; reflexivity).
  destruct (ModelFormView_delete_many_to_many Mixins.open_view
              Mixins.backwards Mixins.numbered_book
              Mixins.delete_tags_padded _ "tags" Mixins.small_int
              [Views.IntPk 1; Views.IntPk 2]
              (λ names, reverse_Permutation names) Hquery Hnames eq_refl)
    as [Hreturns _].
  destruct (Hreturns _ _ _ Hcall)
    as (pks & obj' & remaining & _ & _ & -> & Hfield & _).
  exists obj', request', response. split; [reflexivity|].
  rewrite Hfield. vm_compute in Hcall. injection Hcall as <- _ _.
  vm_compute in Hfield. by injection Hfield as <-.
Defined.

(** ** HtmxChainedFormView and HtmxFormMixin *)
Section ChainedView.

Lemma get_form_kwargs_no_options (view : Views.FormViewClass)
    (request : HttpRequest) (kwargs : FormKwargs) :
  Views.HyperFormMixin_get_form_kwargs view request = Ok kwargs ->
  kw_options kwargs = None.
Proof.
  unfold Views.HyperFormMixin_get_form_kwargs,
    Views.FormMixin_get_form_kwargs.
  destruct (Views.get_initial view request) as [initial|e]; cbn;
    [|discriminate].
  destruct (Views.attr_QUERY request), (Views.attr_BODY request);
    repeat (case_bool_decide; cbn); try destruct (qd_truthy _);
    try discriminate; by intros [= <-].
Qed.

End ChainedView.

(** X19. A request that names one of the form's choice-field ids as its
    target without being an HTMX request gets no response from
    [HtmxChainedFormView.get]: the options are computed for HTMX requests
    only, and reading them raises KeyError, whether or not the view
    overrides [get_options]. *)
Theorem HtmxChainedFormView_get_target_needs_htmx `{Framework}
    (view : Views.FormViewClass) (request : HttpRequest)
    (kwargs : FormKwargs) :
  htmx_bool (htmx request) = false ->
  Views.target_in request (Views.form_field_ids view) = true ->
  Views.HyperFormMixin_get_form_kwargs view request = Ok kwargs ->
  Views.HtmxChainedFormView_get view request = Raise (KeyError "options").
Proof.
  intros Hhtmx Htarget Hkwargs.
  unfold Views.HtmxChainedFormView_get,
    Views.HtmxChainedFormView_get_form_kwargs.
  rewrite Htarget, Hkwargs, Hhtmx. cbn.
  unfold Forms.HtmxChainedForm.
  by rewrite (get_form_kwargs_no_options _ _ _ Hkwargs).
Qed.

(** The city select asked for without HX-Request, of the view that does
    give the cities *)
Lemma HtmxChainedFormView_get_target_needs_htmx_witness :
  Views.HtmxChainedFormView_get (H := Sample.framework) Sample.city_view
    Mixins.plain_city
  = Raise (KeyError "options").
Proof.
  destruct (Views.HyperFormMixin_get_form_kwargs Sample.city_view
              Mixins.plain_city) as [kwargs|e] eqn:Hkwargs;
    [|vm_compute in Hkwargs; discriminate Hkwargs].
  apply (HtmxChainedFormView_get_target_needs_htmx (H := Sample.framework)
           Sample.city_view Mixins.plain_city kwargs);
    [reflexivity | vm_compute; reflexivity | exact Hkwargs].
Defined.


